(** * FeedService: authorization and counter-cache protocol

    A shallow embedding of [src/service/feedService.js] and the proofs of
    its specification.

    The service is a thin orchestration layer over two collaborators that
    it reaches through module-level handles: [feedModel] (the persistent
    Store) and [redisHandle] (the key-value Cache).  Every exported
    function is an [async] function whose whole body sits in one
    [try { ... } catch (error) { handleError(tag, error) }].

    The embedding keeps that shape.  A service function is a program
    ([Prog]) over collaborator calls: [Await] for a call whose promise is
    awaited (a rejection is thrown into the enclosing [try]), [Fire] for a
    call whose promise is dropped on the floor, [Throw] for
    [throw new Error(...)], [Console_error] for [console.error].  Programs
    are run against arbitrary collaborators ([Collaborators]), which may
    answer or reject every call as they like; a reference Store and Cache,
    modelled from the specification, instantiate them. *)

From Stdlib Require Import ZArith Lia Ascii String.
From stdpp Require Import base option list strings pretty gmap.

Local Open Scope string_scope.
Local Open Scope Z_scope.

(** ** JavaScript values used by the service *)

(** Strings are sequences of code units; the model covers the code units
    below 256, which is what [Ascii.ascii] holds. *)

(** The white space and line terminators that [String.prototype.trim] and
    [parseInt] strip, restricted to code units below 256: TAB, LF, VT, FF,
    CR, SPACE and NBSP. *)
Definition is_whitespace (c : ascii) : bool :=
  let n := Z.of_N (N_of_ascii c) in
  ((9 <=? n) && (n <=? 13)) || (n =? 32) || (n =? 160).

Fixpoint trimStart (s : string) : string :=
  match s with
  | EmptyString => EmptyString
  | String c rest => if is_whitespace c then trimStart rest else s
  end.

Fixpoint trimEnd (s : string) : string :=
  match s with
  | EmptyString => EmptyString
  | String c rest =>
      match trimEnd rest with
      | EmptyString => if is_whitespace c then EmptyString else String c EmptyString
      | kept => String c kept
      end
  end.

(** [s.trim()] *)
Definition trim (s : string) : string := trimEnd (trimStart s).

(** A JavaScript Number as far as the service meets one: an integer value,
    [NaN], the negative zero, or an infinity.  (A Number is a binary64; the
    integers that [parseInt] yields are those a binary64 holds exactly.) *)
Inductive JsNumber : Type :=
| NaN
| Num (z : Z)
| NegativeZero
| PositiveInfinity
| NegativeInfinity.

(** The Number value for an integer [m > 0]: [m] itself while it fits the 53
    bits of a binary64 significand; beyond that, [m] rounded to the nearest
    multiple of the power of two that is left over, a tie going to the even
    significand; [None] when the result is 2^1024 or more, which is past the
    largest finite Number. *)
Definition round_binary64 (m : Z) : option Z :=
  let excess := Z.log2 m + 1 - 53 in
  if excess <=? 0 then Some m
  else
    let significand := Z.shiftr m excess in
    let dropped := m - Z.shiftl significand excess in
    let half := Z.shiftl 1 (excess - 1) in
    let up := (half <? dropped) || ((dropped =? half) && Z.odd significand) in
    let rounded := Z.shiftl (if up then significand + 1 else significand) excess in
    if Z.shiftl 1 1024 <=? rounded then None else Some rounded.

(** The last two steps of [parseInt]: for the integer [m >= 0] that the
    digits denote and the sign read before them, [-0] or [+0] when [m] is
    zero, else the Number value for [sign * m]. *)
Definition number_of_digits (sign m : Z) : JsNumber :=
  if m =? 0 then (if sign <? 0 then NegativeZero else Num 0)
  else
    match round_binary64 m with
    | Some v => Num (sign * v)
    | None => if sign <? 0 then NegativeInfinity else PositiveInfinity
    end.

Definition digit_value (c : ascii) : option Z :=
  let n := Z.of_N (N_of_ascii c) in
  if (48 <=? n) && (n <=? 57) then Some (n - 48) else None.

(** The longest prefix of decimal digits, read as a number; [acc] is the
    value read so far, [None] while no digit has been seen. *)
Fixpoint parse_digits (s : string) (acc : option Z) : option Z :=
  match s with
  | EmptyString => acc
  | String c rest =>
      match digit_value c with
      | Some d => parse_digits rest (Some (10 * default 0 acc + d))
      | None => acc
      end
  end.

(** [parseInt(s, 10)]: skip leading white space, read an optional sign, then
    the longest run of decimal digits; [NaN] when there is no digit, else
    the Number value for the signed integer they denote.  (The integer is
    taken in full, however many digits there are, which the language allows
    and Node does.) *)
Definition parseInt10 (s : string) : JsNumber :=
  let body := trimStart s in
  let '(sign, digits) :=
    match body with
    | String c rest =>
        if (c =? "-")%char then (-1, rest)
        else if (c =? "+")%char then (1, rest)
        else (1, body)
    | EmptyString => (1, body)
    end in
  match parse_digits digits None with
  | Some n => number_of_digits sign n
  | None => NaN
  end.

(** An [Error] object: its [name], its [message], and whatever else the
    thrower attached to it (a driver's [code], for instance). *)
Record JsError : Type := mkJsError {
  err_name : string;
  err_message : string;
  err_code : option string
}.

(** [new Error(message)] *)
Definition new_Error (message : string) : JsError :=
  {| err_name := "Error"; err_message := message; err_code := None |}.

(** How a promise settles. *)
Inductive Outcome (A : Type) : Type :=
| Resolved (a : A)
| Rejected (e : JsError).
Arguments Resolved {A} a.
Arguments Rejected {A} e.

(** ** The collaborators' interfaces *)

Module Feed.
(** A feed row as the service reads it: the service only ever inspects
    [firebase_uid], the author. *)
Record t : Type := mk {
  feed_id : string;
  firebase_uid : string;
  description : string
}.
End Feed.

(** The result object of a Store write ([updateFeed], [deleteFeed], ...).
    The service hands it back to its caller without looking inside. *)
Inductive Receipt : Type :=
| receipt (affected : nat).

Module feedModel.
(** The functions of [require('../model/feedModel')] that the service
    calls, with the arguments it passes them.  These only read ... *)
Inductive Query : Type :=
| getFeedById (feed_id : string)
| getAllFeeds
| getFeedImageCount (feed_id : string)
| checkLikeStatus (firebase_uid feed_id : string)
| getLikeCount (feed_id : string)
| getCommentCount (feed_id : string).

(** ... and these write. *)
Inductive Command : Type :=
| createFeed (firebase_uid description : string)
| addFeedImages (feed_id : string) (imageUrls : list string)
| updateFeed (feed_id description : string)
| deleteFeed (feed_id : string)
| updateFeedImage (feed_id image_id newImageUrl : string)
| deleteFeedImage (feed_id image_id : string)
| likeFeed (firebase_uid feed_id : string)
| unlikeFeed (firebase_uid feed_id : string).

(** Modelled from the spec: what the reads of [feedModel], whose source is
    not part of the service file, resolve with (section 6): the feed record
    with its author, or nothing; all feeds; a count; whether the like pair
    exists. *)
Definition answer (q : Query) : Type :=
  match q with
  | getFeedById _ => option Feed.t
  | getAllFeeds => list Feed.t
  | getFeedImageCount _ => Z
  | checkLikeStatus _ _ => bool
  | getLikeCount _ => Z
  | getCommentCount _ => Z
  end.

(** Modelled from the spec: what the writes of [feedModel] resolve with:
    the new feed's id (a string, section 3) for [createFeed], a result
    object for the others. *)
Definition result (c : Command) : Type :=
  match c with
  | createFeed _ _ => string
  | _ => Receipt
  end.
End feedModel.

Module redisHandle.
(** The functions of [require('../config/redisHandle')] that the service
    calls, with the arguments it passes them. *)
Inductive Call : Type :=
| get (key : string)
| del (key : string)
| setex (key : string) (seconds : Z) (value : Z).

(** Modelled from the spec: what the calls of [redisHandle], whose source
    is not part of the service file, resolve with (section 6): [get] gives
    the stored string or nothing; the service never looks at what [del] and
    [setex] give. *)
Definition reply (c : Call) : Type :=
  match c with
  | get _ => option string
  | del _ => unit
  | setex _ _ _ => unit
  end.
End redisHandle.

Inductive Call : Type :=
| Store_query (q : feedModel.Query)
| Store_command (c : feedModel.Command)
| Cache_call (c : redisHandle.Call).

Definition reply (c : Call) : Type :=
  match c with
  | Store_query q => feedModel.answer q
  | Store_command m => feedModel.result m
  | Cache_call r => redisHandle.reply r
  end.

Definition is_store_command (c : Call) : bool :=
  match c with
  | Store_command _ => true
  | _ => false
  end.

(** ** Programs *)

(** The body of an [async] function, as a tree of the effects it performs.
    [Await c k] is [await c(...)]: [k] receives how the promise settled.
    [Fire c k] is a call whose promise nobody looks at. *)
Inductive Prog (A : Type) : Type :=
| Return (a : A)
| Throw (e : JsError)
| Await (c : Call) (k : Outcome (reply c) -> Prog A)
| Fire (c : Call) (k : Prog A)
| Console_error (line : string) (k : Prog A).
Arguments Return {A} a.
Arguments Throw {A} e.
Arguments Await {A} c k.
Arguments Fire {A} c k.
Arguments Console_error {A} line k.

Fixpoint bind {A B : Type} (p : Prog A) (f : A -> Prog B) : Prog B :=
  match p with
  | Return a => f a
  | Throw e => Throw e
  | Await c k => Await c (fun o => bind (k o) f)
  | Fire c k => Fire c (bind k f)
  | Console_error line k => Console_error line (bind k f)
  end.

(** [try { p } catch (error) { handler(error) }] *)
Fixpoint try_catch {A : Type} (p : Prog A) (handler : JsError -> Prog A) : Prog A :=
  match p with
  | Return a => Return a
  | Throw e => handler e
  | Await c k => Await c (fun o => try_catch (k o) handler)
  | Fire c k => Fire c (try_catch k handler)
  | Console_error line k => Console_error line (try_catch k handler)
  end.

(** [await c]: the value of a fulfilled promise; a rejection is thrown. *)
Definition await (c : Call) : Prog (reply c) :=
  Await c (fun o => match o with
                    | Resolved x => Return x
                    | Rejected e => Throw e
                    end).

(** A call statement without [await]. *)
Definition fire (c : Call) : Prog unit := Fire c (Return tt).

Declare Scope prog_scope.
Delimit Scope prog_scope with prog.
Notation "'let*' x := p 'in' q" := (bind p (fun x => q))
  (at level 10, x name, p at level 100, q at level 200) : prog_scope.
Notation "'do' p 'in' q" := (bind p (fun _ => q))
  (at level 10, p at level 100, q at level 200) : prog_scope.
Local Open Scope prog_scope.

(** ** Running a program against the collaborators *)

(** Modelled from the spec: how [feedModel], whose source is not part of
    the service file, behaves, over a Store state [S] of its own.  Every
    function is asynchronous and may fail with an infrastructure error
    (section 6): it returns a promise, which resolves or rejects.  A read
    answers from the state; a write also steps it. *)
Record StoreModel (S : Type) : Type := mkStoreModel {
  store_query : forall q : feedModel.Query, S -> Outcome (feedModel.answer q);
  store_command : forall c : feedModel.Command, S -> Outcome (feedModel.result c) * S
}.
Arguments mkStoreModel {S}.
Arguments store_query {S}.
Arguments store_command {S}.

(** Modelled from the spec: how [redisHandle], whose source is not part of
    the service file, behaves, over a Cache state [C] of its own: [get],
    [del] and [setex] (section 6), each returning a promise that resolves or
    rejects; a failure shows in the promise, not as an exception at the
    call (sections 5 and 9: invalidation and population are fire and
    forget). *)
Record CacheModel (C : Type) : Type := mkCacheModel {
  cache_get : string -> C -> Outcome (option string);
  cache_del : string -> C -> Outcome unit * C;
  cache_setex : string -> Z -> Z -> C -> Outcome unit * C
}.
Arguments mkCacheModel {C}.
Arguments cache_get {C}.
Arguments cache_del {C}.
Arguments cache_setex {C}.

Record Collaborators (S C : Type) : Type := mkCollaborators {
  the_store : StoreModel S;
  the_cache : CacheModel C
}.
Arguments mkCollaborators {S C}.
Arguments the_store {S C}.
Arguments the_cache {S C}.

(** The Store, the Cache, and what was written to the console. *)
Record World (S C : Type) : Type := mkWorld {
  store : S;
  cache : C;
  console : list string
}.
Arguments mkWorld {S C}.
Arguments store {S C}.
Arguments cache {S C}.
Arguments console {S C}.

(** What running an [async] function amounts to: how its promise settles,
    the world it leaves, and the calls it made to the collaborators, oldest
    first. *)
Record Ran (S C A : Type) : Type := mkRan {
  outcome : Outcome A;
  after : World S C;
  calls : list Call
}.
Arguments mkRan {S C A}.
Arguments outcome {S C A}.
Arguments after {S C A}.
Arguments calls {S C A}.

Section Run.
Context {S C : Type}.
Variable collab : Collaborators S C.

Definition with_store (s : S) (w : World S C) : World S C :=
  mkWorld s (cache w) (console w).

Definition with_cache (c : C) (w : World S C) : World S C :=
  mkWorld (store w) c (console w).

Definition logged (line : string) (w : World S C) : World S C :=
  mkWorld (store w) (cache w) (console w ++ [line]).

(** One call to a collaborator: how it settles, and the world after. *)
Definition perform (c : Call) (w : World S C) : Outcome (reply c) * World S C :=
  match c return Outcome (reply c) * World S C with
  | Store_query q => (store_query (the_store collab) q (store w), w)
  | Store_command m =>
      let r := store_command (the_store collab) m (store w) in
      (fst r, with_store (snd r) w)
  | Cache_call r =>
      match r return Outcome (redisHandle.reply r) * World S C with
      | redisHandle.get key => (cache_get (the_cache collab) key (cache w), w)
      | redisHandle.del key =>
          let r := cache_del (the_cache collab) key (cache w) in
          (fst r, with_cache (snd r) w)
      | redisHandle.setex key seconds value =>
          let r := cache_setex (the_cache collab) key seconds value (cache w) in
          (fst r, with_cache (snd r) w)
      end
  end.

(** [c], then what [r] did. *)
Definition having_called {A : Type} (c : Call) (r : Ran S C A) : Ran S C A :=
  mkRan (outcome r) (after r) (c :: calls r).

(** Running a program from world [w].  A fired call is made, and its
    effect on the collaborator takes place, but how it settles is
    discarded. *)
Fixpoint run {A : Type} (p : Prog A) (w : World S C) : Ran S C A :=
  match p with
  | Return a => mkRan (Resolved a) w []
  | Throw e => mkRan (Rejected e) w []
  | Await c k => having_called c (run (k (fst (perform c w))) (snd (perform c w)))
  | Fire c k => having_called c (run k (snd (perform c w)))
  | Console_error line k => run k (logged line w)
  end.
End Run.

(** ** The service *)

(** The template literals [`feed:${feed_id}:likeCount`] and
    [`feed:${feed_id}:commentCount`]. *)
Definition likeCount_key (feed_id : string) : string :=
  "feed:" +:+ feed_id +:+ ":likeCount".

Definition commentCount_key (feed_id : string) : string :=
  "feed:" +:+ feed_id +:+ ":commentCount".

(** [handleError]: log, then throw a fresh [Error] with the same message. *)
Definition handleError {A : Type} (action : string) (error : JsError) : Prog A :=
  Console_error ("Error " +:+ action +:+ ": " +:+ err_message error)
    (Throw (new_Error (err_message error))).

(** The errors the service itself throws. *)
Definition NotFound : JsError := new_Error "Feed not found".
Definition PermissionDenied : JsError := new_Error "Permission denied".
Definition InvariantViolation : JsError :=
  new_Error "Can't delete last image, need at least one image".
Definition AlreadyLiked : JsError := new_Error "Already liked this feed".
Definition NotLiked : JsError := new_Error "Not liked this feed before, cannot unlike".

Module feedService.

(** The [try] blocks of the exported functions. *)
Module body.

Definition createFeed (firebase_uid description : string)
    (imageUrls : option (list string)) : Prog string :=
  let* feedId := await (Store_command (feedModel.createFeed firebase_uid description)) in
  do match imageUrls with
     | Some (url :: urls) =>
         do await (Store_command (feedModel.addFeedImages feedId (url :: urls))) in
         Return tt
     | _ => Return tt
     end in
  do fire (Cache_call (redisHandle.del (likeCount_key feedId))) in
  do fire (Cache_call (redisHandle.del (commentCount_key feedId))) in
  Return feedId.

Definition getFeedById (feed_id : string) : Prog (option Feed.t) :=
  await (Store_query (feedModel.getFeedById (trim feed_id))).

Definition getAllFeeds : Prog (list Feed.t) :=
  await (Store_query feedModel.getAllFeeds).

Definition updateFeed (feed_id firebase_uid description : string) : Prog Receipt :=
  let feed_id := trim feed_id in
  let* feed := await (Store_query (feedModel.getFeedById feed_id)) in
  match feed with
  | None => Throw NotFound
  | Some feed =>
      if negb (Feed.firebase_uid feed =? firebase_uid)%string
      then Throw PermissionDenied
      else
        do fire (Cache_call (redisHandle.del (likeCount_key feed_id))) in
        do fire (Cache_call (redisHandle.del (commentCount_key feed_id))) in
        await (Store_command (feedModel.updateFeed feed_id description))
  end.

Definition deleteFeed (feed_id firebase_uid : string) : Prog Receipt :=
  let feed_id := trim feed_id in
  let* feed := await (Store_query (feedModel.getFeedById feed_id)) in
  match feed with
  | None => Throw NotFound
  | Some feed =>
      if negb (Feed.firebase_uid feed =? firebase_uid)%string
      then Throw PermissionDenied
      else
        do fire (Cache_call (redisHandle.del (likeCount_key feed_id))) in
        do fire (Cache_call (redisHandle.del (commentCount_key feed_id))) in
        await (Store_command (feedModel.deleteFeed feed_id))
  end.

Definition updateFeedImage (firebase_uid feed_id image_id newImageUrl : string)
    : Prog Receipt :=
  let* feed := await (Store_query (feedModel.getFeedById feed_id)) in
  match feed with
  | None => Throw NotFound
  | Some feed =>
      if negb (Feed.firebase_uid feed =? firebase_uid)%string
      then Throw PermissionDenied
      else await (Store_command (feedModel.updateFeedImage feed_id image_id newImageUrl))
  end.

Definition deleteFeedImage (firebase_uid feed_id image_id : string) : Prog Receipt :=
  let* feed := await (Store_query (feedModel.getFeedById feed_id)) in
  match feed with
  | None => Throw NotFound
  | Some feed =>
      if negb (Feed.firebase_uid feed =? firebase_uid)%string
      then Throw PermissionDenied
      else
        let* imageCount := await (Store_query (feedModel.getFeedImageCount feed_id)) in
        if imageCount <=? 1
        then Throw InvariantViolation
        else await (Store_command (feedModel.deleteFeedImage feed_id image_id))
  end.

Definition likeFeed (firebase_uid feed_id : string) : Prog bool :=
  let feed_id := trim feed_id in
  let* feed := await (Store_query (feedModel.getFeedById feed_id)) in
  match feed with
  | None => Throw NotFound
  | Some _ =>
      let* alreadyLiked :=
        await (Store_query (feedModel.checkLikeStatus firebase_uid feed_id)) in
      if alreadyLiked
      then Throw AlreadyLiked
      else
        do await (Store_command (feedModel.likeFeed firebase_uid feed_id)) in
        do fire (Cache_call (redisHandle.del (likeCount_key feed_id))) in
        Return true
  end.

Definition unlikeFeed (firebase_uid feed_id : string) : Prog bool :=
  let feed_id := trim feed_id in
  let* feed := await (Store_query (feedModel.getFeedById feed_id)) in
  match feed with
  | None => Throw NotFound
  | Some _ =>
      let* alreadyLiked :=
        await (Store_query (feedModel.checkLikeStatus firebase_uid feed_id)) in
      if negb alreadyLiked
      then Throw NotLiked
      else
        do await (Store_command (feedModel.unlikeFeed firebase_uid feed_id)) in
        do fire (Cache_call (redisHandle.del (likeCount_key feed_id))) in
        Return true
  end.

Definition checkLikeStatus (firebase_uid feed_id : string) : Prog bool :=
  let feed_id := trim feed_id in
  let* feed := await (Store_query (feedModel.getFeedById feed_id)) in
  match feed with
  | None => Throw NotFound
  | Some _ => await (Store_query (feedModel.checkLikeStatus firebase_uid feed_id))
  end.

Definition getLikeCount (feed_id : string) : Prog JsNumber :=
  let feed_id := trim feed_id in
  let* cachedLikeCount := await (Cache_call (redisHandle.get (likeCount_key feed_id))) in
  match cachedLikeCount with
  | Some (String c rest) => Return (parseInt10 (String c rest))
  | _ =>
      let* feed := await (Store_query (feedModel.getFeedById feed_id)) in
      match feed with
      | None => Throw NotFound
      | Some _ =>
          let* likeCount := await (Store_query (feedModel.getLikeCount feed_id)) in
          do fire (Cache_call (redisHandle.setex (likeCount_key feed_id) 600 likeCount)) in
          Return (Num likeCount)
      end
  end.

Definition getCommentCount (feed_id : string) : Prog JsNumber :=
  let feed_id := trim feed_id in
  let* cachedCommentCount :=
    await (Cache_call (redisHandle.get (commentCount_key feed_id))) in
  match cachedCommentCount with
  | Some (String c rest) => Return (parseInt10 (String c rest))
  | _ =>
      let* feed := await (Store_query (feedModel.getFeedById feed_id)) in
      match feed with
      | None => Throw NotFound
      | Some _ =>
          let* commentCount := await (Store_query (feedModel.getCommentCount feed_id)) in
          do fire (Cache_call
                     (redisHandle.setex (commentCount_key feed_id) 600 commentCount)) in
          Return (Num commentCount)
      end
  end.

End body.

Definition createFeed (firebase_uid description : string)
    (imageUrls : option (list string)) : Prog string :=
  try_catch (body.createFeed firebase_uid description imageUrls)
    (handleError "creating feed").

Definition getFeedById (feed_id : string) : Prog (option Feed.t) :=
  try_catch (body.getFeedById feed_id) (handleError "retrieving feed").

Definition getAllFeeds : Prog (list Feed.t) :=
  try_catch body.getAllFeeds (handleError "retrieving feeds").

Definition updateFeed (feed_id firebase_uid description : string) : Prog Receipt :=
  try_catch (body.updateFeed feed_id firebase_uid description)
    (handleError "updating feed").

Definition deleteFeed (feed_id firebase_uid : string) : Prog Receipt :=
  try_catch (body.deleteFeed feed_id firebase_uid) (handleError "deleting feed").

Definition updateFeedImage (firebase_uid feed_id image_id newImageUrl : string)
    : Prog Receipt :=
  try_catch (body.updateFeedImage firebase_uid feed_id image_id newImageUrl)
    (handleError "updating feed image").

Definition deleteFeedImage (firebase_uid feed_id image_id : string) : Prog Receipt :=
  try_catch (body.deleteFeedImage firebase_uid feed_id image_id)
    (handleError "deleting feed image").

Definition likeFeed (firebase_uid feed_id : string) : Prog bool :=
  try_catch (body.likeFeed firebase_uid feed_id) (handleError "liking feed").

Definition unlikeFeed (firebase_uid feed_id : string) : Prog bool :=
  try_catch (body.unlikeFeed firebase_uid feed_id) (handleError "unliking feed").

Definition checkLikeStatus (firebase_uid feed_id : string) : Prog bool :=
  try_catch (body.checkLikeStatus firebase_uid feed_id)
    (handleError "checking like status").

Definition getLikeCount (feed_id : string) : Prog JsNumber :=
  try_catch (body.getLikeCount feed_id) (handleError "getting like count").

Definition getCommentCount (feed_id : string) : Prog JsNumber :=
  try_catch (body.getCommentCount feed_id) (handleError "getting comment count").

End feedService.

(** ** A reference Store and Cache *)

Module Image.
(** Modelled from the spec: an image row (section 3): its id, the feed it
    belongs to, its URL. *)
Record t : Type := mk {
  image_id : string;
  feed_id : string;
  url : string
}.
End Image.

(** Modelled from the spec: the Store behind [feedModel], whose source is
    not part of the service file.  Feeds by id, the image rows in insertion
    order, the set of (user, feed) like pairs, the comment count of each
    feed (comments belong to another component; only their count is read),
    and the supply of fresh ids. *)
Record Store : Type := mkStore {
  feeds : gmap string Feed.t;
  images : list Image.t;
  likes : gset (string * string);
  comments : gmap string Z;
  next_id : N
}.

(** Modelled from the spec: the row belongs to the feed. *)
Definition image_of (feed_id : string) (i : Image.t) : bool :=
  (Image.feed_id i =? feed_id)%string.

(** Modelled from the spec: the row is the image [image_id] of the feed. *)
Definition is_image (feed_id image_id : string) (i : Image.t) : bool :=
  (Image.feed_id i =? feed_id)%string && (Image.image_id i =? image_id)%string.

(** Modelled from the spec: deletion of a single image by id (section 6).
    It removes the first row that satisfies [p]: an id names one row, so a
    delete by id removes at most one. *)
Fixpoint delete_row {A : Type} (p : A -> bool) (rows : list A) : list A :=
  match rows with
  | [] => []
  | r :: rest => if p r then rest else r :: delete_row p rest
  end.

(** Modelled from the spec: the rows that a batch append of image
    references makes, in their order (section 6), with ids from the supply. *)
Fixpoint number_images (feed_id : string) (first : N) (urls : list string) : list Image.t :=
  match urls with
  | [] => []
  | u :: rest =>
      Image.mk ("i" +:+ pretty first) feed_id u :: number_images feed_id (N.succ first) rest
  end.

(** Modelled from the spec: the count of images for a feed (section 6). *)
Definition image_count (feed_id : string) (s : Store) : Z :=
  Z.of_nat (length (filter (fun i => image_of feed_id i = true) (images s))).

(** Modelled from the spec: the count of likes for a feed (section 6). *)
Definition like_count (feed_id : string) (s : Store) : Z :=
  Z.of_nat (size (filter (fun p : string * string => p.2 = feed_id) (likes s))).

(** Modelled from the spec: the reads of the Store (section 6: get a feed
    by id, all feeds, count of images, existence of a like pair, count of
    likes, count of comments).  The reference Store never rejects. *)
Definition reference_query (q : feedModel.Query) (s : Store)
    : Outcome (feedModel.answer q) :=
  match q return Outcome (feedModel.answer q) with
  | feedModel.getFeedById feed_id => Resolved (feeds s !! feed_id)
  | feedModel.getAllFeeds => Resolved ((map_to_list (feeds s)).*2)
  | feedModel.getFeedImageCount feed_id => Resolved (image_count feed_id s)
  | feedModel.checkLikeStatus firebase_uid feed_id =>
      Resolved (bool_decide ((firebase_uid, feed_id) ∈ likes s))
  | feedModel.getLikeCount feed_id => Resolved (like_count feed_id s)
  | feedModel.getCommentCount feed_id => Resolved (default 0 (comments s !! feed_id))
  end.

(** Modelled from the spec: the writes of the Store (section 6: create,
    update and delete a feed, append images, update and delete one image,
    create and delete a like pair).  Deleting a feed takes its images,
    likes and comments with it. *)
Definition reference_command (c : feedModel.Command) (s : Store)
    : Outcome (feedModel.result c) * Store :=
  match c return Outcome (feedModel.result c) * Store with
  | feedModel.createFeed firebase_uid description =>
      let id := "f" +:+ pretty (next_id s) in
      (Resolved id,
       mkStore (<[id := Feed.mk id firebase_uid description]> (feeds s))
         (images s) (likes s) (comments s) (N.succ (next_id s)))
  | feedModel.addFeedImages feed_id imageUrls =>
      (Resolved (receipt (length imageUrls)),
       mkStore (feeds s) (images s ++ number_images feed_id (next_id s) imageUrls)
         (likes s) (comments s) (next_id s + N.of_nat (length imageUrls))%N)
  | feedModel.updateFeed feed_id description =>
      (Resolved (receipt (match feeds s !! feed_id with Some _ => 1 | None => 0 end)),
       mkStore
         (alter (fun f => Feed.mk (Feed.feed_id f) (Feed.firebase_uid f) description)
            feed_id (feeds s))
         (images s) (likes s) (comments s) (next_id s))
  | feedModel.deleteFeed feed_id =>
      (Resolved (receipt (match feeds s !! feed_id with Some _ => 1 | None => 0 end)),
       mkStore (delete feed_id (feeds s))
         (filter (fun i => image_of feed_id i = false) (images s))
         (filter (fun p : string * string => p.2 ≠ feed_id) (likes s))
         (delete feed_id (comments s)) (next_id s))
  | feedModel.updateFeedImage feed_id image_id newImageUrl =>
      (Resolved (receipt (length (filter (fun i => is_image feed_id image_id i = true)
                                     (images s)))),
       mkStore (feeds s)
         (map (fun i => if is_image feed_id image_id i
                        then Image.mk (Image.image_id i) (Image.feed_id i) newImageUrl
                        else i) (images s))
         (likes s) (comments s) (next_id s))
  | feedModel.deleteFeedImage feed_id image_id =>
      (Resolved (receipt (length (images s)
                          - length (delete_row (is_image feed_id image_id) (images s)))),
       mkStore (feeds s) (delete_row (is_image feed_id image_id) (images s))
         (likes s) (comments s) (next_id s))
  | feedModel.likeFeed firebase_uid feed_id =>
      (Resolved (receipt 1),
       mkStore (feeds s) (images s) ({[ (firebase_uid, feed_id) ]} ∪ likes s)
         (comments s) (next_id s))
  | feedModel.unlikeFeed firebase_uid feed_id =>
      (Resolved (receipt 1),
       mkStore (feeds s) (images s) (likes s ∖ {[ (firebase_uid, feed_id) ]})
         (comments s) (next_id s))
  end.

(** Modelled from the spec: [feedModel] as the reference Store. *)
Definition reference_store : StoreModel Store :=
  mkStoreModel reference_query reference_command.

(** Modelled from the spec: the Cache behind [redisHandle], whose source is
    not part of the service file (section 6: [get] gives the value or
    nothing, [setex] stores under a time to live, [del] is harmless on a
    missing key).  An entry keeps the seconds it was stored with and the
    value as the string the cache hands back.  The clock is not part of the
    model: no entry expires by itself. *)
Definition reference_cache : CacheModel (gmap string (Z * string)) :=
  mkCacheModel
    (fun key c => Resolved (snd <$> c !! key))
    (fun key c => (Resolved tt, delete key c))
    (fun key seconds value c => (Resolved tt, <[key := (seconds, pretty value)]> c)).

(** Modelled from the spec: the service's two collaborators, as the
    reference Store and the reference Cache. *)
Definition reference : Collaborators Store (gmap string (Z * string)) :=
  mkCollaborators reference_store reference_cache.

(** ** Vocabulary of the specification *)

(** The exported functions, each with its arguments. *)
Inductive Operation : Type :=
| op_createFeed (firebase_uid description : string) (imageUrls : option (list string))
| op_getFeedById (feed_id : string)
| op_getAllFeeds
| op_updateFeed (feed_id firebase_uid description : string)
| op_deleteFeed (feed_id firebase_uid : string)
| op_updateFeedImage (firebase_uid feed_id image_id newImageUrl : string)
| op_deleteFeedImage (firebase_uid feed_id image_id : string)
| op_likeFeed (firebase_uid feed_id : string)
| op_unlikeFeed (firebase_uid feed_id : string)
| op_checkLikeStatus (firebase_uid feed_id : string)
| op_getLikeCount (feed_id : string)
| op_getCommentCount (feed_id : string).

Definition returns (op : Operation) : Type :=
  match op with
  | op_createFeed _ _ _ => string
  | op_getFeedById _ => option Feed.t
  | op_getAllFeeds => list Feed.t
  | op_updateFeed _ _ _ | op_deleteFeed _ _
  | op_updateFeedImage _ _ _ _ | op_deleteFeedImage _ _ _ => Receipt
  | op_likeFeed _ _ | op_unlikeFeed _ _ | op_checkLikeStatus _ _ => bool
  | op_getLikeCount _ | op_getCommentCount _ => JsNumber
  end.

(** The exported function itself. *)
Definition exported (op : Operation) : Prog (returns op) :=
  match op return Prog (returns op) with
  | op_createFeed u d i => feedService.createFeed u d i
  | op_getFeedById f => feedService.getFeedById f
  | op_getAllFeeds => feedService.getAllFeeds
  | op_updateFeed f u d => feedService.updateFeed f u d
  | op_deleteFeed f u => feedService.deleteFeed f u
  | op_updateFeedImage u f i n => feedService.updateFeedImage u f i n
  | op_deleteFeedImage u f i => feedService.deleteFeedImage u f i
  | op_likeFeed u f => feedService.likeFeed u f
  | op_unlikeFeed u f => feedService.unlikeFeed u f
  | op_checkLikeStatus u f => feedService.checkLikeStatus u f
  | op_getLikeCount f => feedService.getLikeCount f
  | op_getCommentCount f => feedService.getCommentCount f
  end.

(** What the exported function attempts: the contents of its [try]. *)
Definition attempt (op : Operation) : Prog (returns op) :=
  match op return Prog (returns op) with
  | op_createFeed u d i => feedService.body.createFeed u d i
  | op_getFeedById f => feedService.body.getFeedById f
  | op_getAllFeeds => feedService.body.getAllFeeds
  | op_updateFeed f u d => feedService.body.updateFeed f u d
  | op_deleteFeed f u => feedService.body.deleteFeed f u
  | op_updateFeedImage u f i n => feedService.body.updateFeedImage u f i n
  | op_deleteFeedImage u f i => feedService.body.deleteFeedImage u f i
  | op_likeFeed u f => feedService.body.likeFeed u f
  | op_unlikeFeed u f => feedService.body.unlikeFeed u f
  | op_checkLikeStatus u f => feedService.body.checkLikeStatus u f
  | op_getLikeCount f => feedService.body.getLikeCount f
  | op_getCommentCount f => feedService.body.getCommentCount f
  end.

(** The name of the attempted action, as the log shows it. *)
Definition action (op : Operation) : string :=
  match op with
  | op_createFeed _ _ _ => "creating feed"
  | op_getFeedById _ => "retrieving feed"
  | op_getAllFeeds => "retrieving feeds"
  | op_updateFeed _ _ _ => "updating feed"
  | op_deleteFeed _ _ => "deleting feed"
  | op_updateFeedImage _ _ _ _ => "updating feed image"
  | op_deleteFeedImage _ _ _ => "deleting feed image"
  | op_likeFeed _ _ => "liking feed"
  | op_unlikeFeed _ _ => "unliking feed"
  | op_checkLikeStatus _ _ => "checking like status"
  | op_getLikeCount _ => "getting like count"
  | op_getCommentCount _ => "getting comment count"
  end.

(** The line [handleError] writes. *)
Definition error_line (action : string) (e : JsError) : string :=
  "Error " +:+ action +:+ ": " +:+ err_message e.

(** The cache has nothing usable under a key: no value, or the empty
    string. *)
Definition cache_miss (v : option string) : Prop := v = None \/ v = Some "".

(** The first collaborator call a program makes. *)
Fixpoint first_call {A : Type} (p : Prog A) : option Call :=
  match p with
  | Return _ | Throw _ => None
  | Await c _ | Fire c _ => Some c
  | Console_error _ k => first_call k
  end.

(** What a counter read amounts to when it has to go to the Store: the
    existence check, then the count, any rejection passed on by message. *)
Definition like_count_from_store {S : Type} (st : StoreModel S) (feed_id : string) (s : S)
    : Outcome JsNumber :=
  match store_query st (feedModel.getFeedById feed_id) s with
  | Rejected e => Rejected (new_Error (err_message e))
  | Resolved None => Rejected NotFound
  | Resolved (Some _) =>
      match store_query st (feedModel.getLikeCount feed_id) s with
      | Rejected e => Rejected (new_Error (err_message e))
      | Resolved n => Resolved (Num n)
      end
  end.

Definition comment_count_from_store {S : Type} (st : StoreModel S) (feed_id : string) (s : S)
    : Outcome JsNumber :=
  match store_query st (feedModel.getFeedById feed_id) s with
  | Rejected e => Rejected (new_Error (err_message e))
  | Resolved None => Rejected NotFound
  | Resolved (Some _) =>
      match store_query st (feedModel.getCommentCount feed_id) s with
      | Rejected e => Rejected (new_Error (err_message e))
      | Resolved n => Resolved (Num n)
      end
  end.

(** An operation was refused with [e]: the Store is as it was and no write
    was sent to it. *)
Definition turned_away {S C A : Type} (r : Ran S C A) (w : World S C) (e : JsError) : Prop :=
  outcome r = Rejected e /\
  store (after r) = store w /\
  Forall (fun c => is_store_command c = false) (calls r).

(** The authorization gate of a feed mutation [p] that loads the feed under
    [id] on behalf of [acting]. *)
Definition gated {S C A : Type} (collab : Collaborators S C) (w : World S C)
    (id acting : string) (p : Prog A) : Prop :=
  (forall feed,
      store_query (the_store collab) (feedModel.getFeedById id) (store w)
        = Resolved (Some feed) ->
      Feed.firebase_uid feed <> acting ->
      turned_away (run collab p w) w PermissionDenied) /\
  (store_query (the_store collab) (feedModel.getFeedById id) (store w) = Resolved None ->
   turned_away (run collab p w) w NotFound).

(** The Store has a feed under [id]. *)
Definition has_feed {S : Type} (st : StoreModel S) (id : string) (s : S) : Prop :=
  exists feed, store_query st (feedModel.getFeedById id) s = Resolved (Some feed).

(** The state of the pair (user, feed) as the Store reports it: [true] is
    LIKED, [false] is NOT_LIKED. *)
Definition like_state {S : Type} (st : StoreModel S) (firebase_uid id : string) (s : S)
    (liked : bool) : Prop :=
  store_query st (feedModel.checkLikeStatus firebase_uid id) s = Resolved liked.

(** Running an operation from [w] left every entry of the reference Cache
    as it was, the like count of feed [id] apart: the comment count of
    [id], and both counters of every other feed. *)
Definition like_count_apart {S A : Type} (r : Ran S (gmap string (Z * string)) A)
    (w : World S (gmap string (Z * string))) (id : string) : Prop :=
  (forall key, key <> likeCount_key id -> cache (after r) !! key = cache w !! key) /\
  cache (after r) !! commentCount_key id = cache w !! commentCount_key id /\
  (forall other, other <> id ->
     cache (after r) !! likeCount_key other = cache w !! likeCount_key other /\
     cache (after r) !! commentCount_key other = cache w !! commentCount_key other).

(** The feed id an exported function is given, if it takes one. *)
Definition given_feed_id (op : Operation) : option string :=
  match op with
  | op_createFeed _ _ _ | op_getAllFeeds => None
  | op_getFeedById f | op_updateFeed f _ _ | op_deleteFeed f _
  | op_updateFeedImage _ f _ _ | op_deleteFeedImage _ f _
  | op_likeFeed _ f | op_unlikeFeed _ f | op_checkLikeStatus _ f
  | op_getLikeCount f | op_getCommentCount f => Some f
  end.

(** The two image operations, which use the feed id as given. *)
Definition is_image_operation (op : Operation) : bool :=
  match op with
  | op_updateFeedImage _ _ _ _ | op_deleteFeedImage _ _ _ => true
  | _ => false
  end.

(** The call [c] is about the feed [id]: [id] is the feed id passed to the
    Store, or the one the Cache key is made of. *)
Definition passes (id : string) (c : Call) : Prop :=
  match c with
  | Store_query q =>
      match q with
      | feedModel.getFeedById f | feedModel.getFeedImageCount f
      | feedModel.checkLikeStatus _ f | feedModel.getLikeCount f
      | feedModel.getCommentCount f => f = id
      | feedModel.getAllFeeds => False
      end
  | Store_command m =>
      match m with
      | feedModel.addFeedImages f _ | feedModel.updateFeed f _ | feedModel.deleteFeed f
      | feedModel.updateFeedImage f _ _ | feedModel.deleteFeedImage f _
      | feedModel.likeFeed _ f | feedModel.unlikeFeed _ f => f = id
      | feedModel.createFeed _ _ => False
      end
  | Cache_call r =>
      match r with
      | redisHandle.get key | redisHandle.del key | redisHandle.setex key _ _ =>
          key = likeCount_key id \/ key = commentCount_key id
      end
  end.

(** The call by which [createFeed] attaches the images, if it has any to
    attach. *)
Definition images_call (feedId : string) (imageUrls : option (list string)) : list Call :=
  match imageUrls with
  | Some (url :: urls) => [Store_command (feedModel.addFeedImages feedId (url :: urls))]
  | _ => []
  end.

(** In world [w], over the reference Cache, the like count of [feed_id] is
    not cached, and [getLikeCount(feed_id)] settles as the Store of [w]
    makes it. *)
Definition like_count_recomputed {S : Type} (st : StoreModel S)
    (w : World S (gmap string (Z * string))) (feed_id : string) : Prop :=
  cache w !! likeCount_key (trim feed_id) = None /\
  outcome (run (mkCollaborators st reference_cache) (feedService.getLikeCount feed_id) w)
  = like_count_from_store st (trim feed_id) (store w).

Definition comment_count_recomputed {S : Type} (st : StoreModel S)
    (w : World S (gmap string (Z * string))) (feed_id : string) : Prop :=
  cache w !! commentCount_key (trim feed_id) = None /\
  outcome (run (mkCollaborators st reference_cache) (feedService.getCommentCount feed_id) w)
  = comment_count_from_store st (trim feed_id) (store w).

(** ** Worlds to try the service on *)

Definition alice_feed : Feed.t := Feed.mk "f1" "alice" "hello".

(** Alice's feed [f1] with two images, liked by Bob, with three
    comments. *)
Definition demo_store : Store :=
  mkStore {[ "f1" := alice_feed ]}
    [Image.mk "i1" "f1" "a.jpg"; Image.mk "i2" "f1" "b.jpg"]
    {[ ("bob", "f1") ]} {[ "f1" := 3 ]} 3.

Definition demo_world : World Store (gmap string (Z * string)) :=
  mkWorld demo_store ∅ [].

(** An empty Store behind a cache that still holds counters for [f1]. *)
Definition stale_world : World Store (gmap string (Z * string)) :=
  mkWorld (mkStore ∅ [] ∅ ∅ 0)
    {[ "feed:f1:likeCount" := (600, "7"); "feed:f1:commentCount" := (600, "2") ]} [].

(** Alice's feed down to its last image. *)
Definition last_image_world : World Store (gmap string (Z * string)) :=
  mkWorld (mkStore {[ "f1" := alice_feed ]} [Image.mk "i2" "f1" "b.jpg"] ∅ ∅ 3) ∅ [].

(** The demo Store behind a Cache that holds counters of two feeds, those
    of [f1] out of date. *)
Definition warm_world : World Store (gmap string (Z * string)) :=
  mkWorld demo_store
    {[ "feed:f1:likeCount" := (600, "41"); "feed:f1:commentCount" := (600, "43");
       "feed:f2:likeCount" := (600, "5"); "feed:f2:commentCount" := (600, "0") ]} [].

(** What a driver throws when the database is away. *)
Definition connection_lost : JsError :=
  {| err_name := "SqlError"; err_message := "connection lost";
     err_code := Some "ECONNRESET" |}.

(** A Store that rejects every call. *)
Definition outage : StoreModel unit :=
  mkStoreModel (fun _ _ => Rejected connection_lost)
    (fun _ s => (Rejected connection_lost, s)).

(** A Cache that holds nothing and rejects every write. *)
Definition broken_cache : CacheModel unit :=
  mkCacheModel (fun _ _ => Resolved None)
    (fun _ c => (Rejected connection_lost, c))
    (fun _ _ _ c => (Rejected connection_lost, c)).

(** A Cache that cannot be reached at all. *)
Definition unreachable_cache : CacheModel unit :=
  mkCacheModel (fun _ _ => Rejected connection_lost)
    (fun _ c => (Rejected connection_lost, c))
    (fun _ _ _ c => (Rejected connection_lost, c)).

(** ** Further vocabulary *)

(** The exported functions that only read: the two feed reads, the like
    status and the two counters. *)
Definition is_read_operation (op : Operation) : bool :=
  match op with
  | op_getFeedById _ | op_getAllFeeds | op_checkLikeStatus _ _
  | op_getLikeCount _ | op_getCommentCount _ => true
  | _ => false
  end.

(** The exported functions whose text never mentions [redisHandle]. *)
Definition is_cacheless_operation (op : Operation) : bool :=
  match op with
  | op_getFeedById _ | op_getAllFeeds | op_checkLikeStatus _ _
  | op_updateFeedImage _ _ _ _ | op_deleteFeedImage _ _ _ => true
  | _ => false
  end.

(** For the four functions behind the ownership check: the id under which
    the feed is loaded, and the acting identity. *)
Definition ownership_check (op : Operation) : option (string * string) :=
  match op with
  | op_updateFeed f u _ | op_deleteFeed f u => Some (trim f, u)
  | op_updateFeedImage u f _ _ | op_deleteFeedImage u f _ => Some (f, u)
  | _ => None
  end.

Definition is_cache_call (c : Call) : bool :=
  match c with
  | Cache_call _ => true
  | _ => false
  end.

Definition is_cache_write (c : Call) : bool :=
  match c with
  | Cache_call (redisHandle.del _) | Cache_call (redisHandle.setex _ _ _) => true
  | _ => false
  end.

Definition is_addFeedImages (c : Call) : bool :=
  match c with
  | Store_command (feedModel.addFeedImages _ _) => true
  | _ => false
  end.

(** The reference Store with its writes away: reads answer, every write is
    rejected and changes nothing. *)
Definition writes_down : StoreModel Store :=
  mkStoreModel reference_query (fun _ s => (Rejected connection_lost, s)).

(** The reference Store, except that attaching images is rejected. *)
Definition images_down : StoreModel Store :=
  mkStoreModel reference_query
    (fun c s =>
       match c as c0 return Outcome (feedModel.result c0) * Store with
       | feedModel.addFeedImages _ _ => (Rejected connection_lost, s)
       | c0 => reference_command c0 s
       end).

Arguments trim : simpl never.
Arguments parseInt10 : simpl never.
Arguments likeCount_key : simpl never.
Arguments commentCount_key : simpl never.
Arguments error_line : simpl never.

(** * Proofs *)

(** ** Strings *)

Lemma trimEnd_head (c : ascii) (s : string) :
  is_whitespace c = false ->
  exists rest, trimEnd (String c s) = String c rest.
Proof.
  intros Hc. simpl. destruct (trimEnd s); rewrite ?Hc; eauto.
Qed.

Lemma trimStart_head (s : string) :
  trimStart s = EmptyString \/
  exists c rest, trimStart s = String c rest /\ is_whitespace c = false.
Proof.
  induction s as [|c s IH]; simpl; [now left|].
  destruct (is_whitespace c) eqn:Hc; [exact IH|]. right. eauto.
Qed.

Lemma trimEnd_idempotent (s : string) : trimEnd (trimEnd s) = trimEnd s.
Proof.
  induction s as [|c s IH]; simpl; [reflexivity|].
  destruct (trimEnd s) as [|d kept] eqn:Hs.
  - destruct (is_whitespace c) eqn:Hc; simpl; [reflexivity|]. now rewrite Hc.
  - change (trimEnd (String c (String d kept)) = String c (String d kept)).
    cbn [trimEnd] in *. rewrite IH. reflexivity.
Qed.

Lemma trimStart_trimEnd (s : string) :
  (s = EmptyString \/ exists c rest, s = String c rest /\ is_whitespace c = false) ->
  trimStart (trimEnd s) = trimEnd s.
Proof.
  intros [->|(c & rest & -> & Hc)]; [reflexivity|].
  destruct (trimEnd_head c rest Hc) as [kept ->]. simpl. now rewrite Hc.
Qed.

Lemma trim_idempotent (s : string) : trim (trim s) = trim s.
Proof.
  unfold trim. rewrite trimStart_trimEnd.
  - apply trimEnd_idempotent.
  - apply trimStart_head.
Qed.

Lemma list_ascii_of_string_app (s t : string) :
  list_ascii_of_string (s +:+ t)
  = (list_ascii_of_string s ++ list_ascii_of_string t)%list.
Proof.
  induction s as [|c s IH]; simpl; [reflexivity|]. now rewrite IH.
Qed.

Lemma list_ascii_of_string_inj (s t : string) :
  list_ascii_of_string s = list_ascii_of_string t -> s = t.
Proof.
  intros H. rewrite <- (string_of_list_ascii_of_string s), H.
  apply string_of_list_ascii_of_string.
Qed.

Lemma string_app_inv_tail (s t suffix : string) :
  s +:+ suffix = t +:+ suffix -> s = t.
Proof.
  intros H. apply list_ascii_of_string_inj.
  apply (f_equal list_ascii_of_string) in H.
  rewrite !list_ascii_of_string_app in H. now apply app_inv_tail in H.
Qed.

Lemma likeCount_key_inj (f g : string) : likeCount_key f = likeCount_key g -> f = g.
Proof.
  unfold likeCount_key. intros H. apply String.app_inj in H.
  now apply string_app_inv_tail in H.
Qed.

Lemma commentCount_key_inj (f g : string) :
  commentCount_key f = commentCount_key g -> f = g.
Proof.
  unfold commentCount_key. intros H. apply String.app_inj in H.
  now apply string_app_inv_tail in H.
Qed.

(** No like-count key is a comment-count key, whatever the two feed ids:
    read from the end, the sixth code unit is [e] in one and [t] in the
    other. *)
Lemma likeCount_key_not_commentCount_key (f g : string) :
  likeCount_key f <> commentCount_key g.
Proof.
  unfold likeCount_key, commentCount_key. intros H. apply String.app_inj in H.
  apply (f_equal list_ascii_of_string) in H.
  rewrite !list_ascii_of_string_app in H.
  apply (f_equal (@rev ascii)) in H. rewrite !rev_app_distr in H.
  simpl in H. congruence.
Qed.

(** What [setex] stores is read back by [parseInt]. *)

Lemma pretty_N_char_digit (d : N) :
  (d < 10)%N ->
  digit_value (pretty_N_char d) = Some (Z.of_N d) /\
  is_whitespace (pretty_N_char d) = false /\
  (pretty_N_char d =? "-")%char = false /\
  (pretty_N_char d =? "+")%char = false.
Proof.
  intros Hd.
  assert (d = 0 \/ d = 1 \/ d = 2 \/ d = 3 \/ d = 4 \/ d = 5 \/ d = 6 \/ d = 7
          \/ d = 8 \/ d = 9)%N as Hcases by lia.
  repeat destruct Hcases as [-> | Hcases]; try subst d; repeat split; reflexivity.
Qed.

Lemma pretty_N_go_head (x : N) (s : string) :
  (0 < x)%N ->
  exists d rest, (d < 10)%N /\ pretty_N_go x s = String (pretty_N_char d) rest.
Proof.
  revert s. induction (N.lt_wf_0 x) as [x _ IH]. intros s Hpos.
  rewrite pretty_N_go_step by exact Hpos.
  destruct (decide (x `div` 10 = 0)%N) as [Hzero | Hmore].
  - rewrite Hzero, pretty_N_go_0. exists (x `mod` 10)%N, s. split; [|reflexivity].
    now apply N.mod_lt.
  - apply IH; [apply N.div_lt; lia | now apply N.neq_0_lt_0].
Qed.

Lemma parse_digits_pretty_N_go (x : N) (s : string) :
  (0 < x)%N ->
  parse_digits (pretty_N_go x s) None = parse_digits s (Some (Z.of_N x)).
Proof.
  revert s. induction (N.lt_wf_0 x) as [x _ IH]. intros s Hpos.
  rewrite pretty_N_go_step by exact Hpos.
  destruct (pretty_N_char_digit (x `mod` 10)%N) as (Hdigit & _); [now apply N.mod_lt|].
  pose proof (N.div_mod x 10 ltac:(discriminate)) as Hx.
  assert (Hless : (x `div` 10 < x)%N) by (apply N.div_lt; lia).
  destruct (decide (x `div` 10 = 0)%N) as [Hzero | Hmore].
  - rewrite Hzero, pretty_N_go_0. cbn [parse_digits]. rewrite Hdigit. cbn [default].
    do 2 f_equal. rewrite Hzero in Hx. rewrite Hx at 2. rewrite N.mul_0_r, N.add_0_l.
    reflexivity.
  - rewrite (IH _ Hless) by now apply N.neq_0_lt_0.
    cbn [parse_digits]. rewrite Hdigit. cbn [default]. do 2 f_equal.
    rewrite Hx at 3. rewrite N2Z.inj_add, N2Z.inj_mul. reflexivity.
Qed.

(** Below 2^53 every integer is its own Number value. *)
Lemma round_binary64_exact (m : Z) :
  0 < m < 2 ^ 53 -> round_binary64 m = Some m.
Proof.
  intros [Hpos Hsmall]. unfold round_binary64.
  assert (Hlog : Z.log2 m < 53) by (apply Z.log2_lt_pow2; lia).
  destruct (Z.leb_spec (Z.log2 m + 1 - 53) 0); [reflexivity | lia].
Qed.

(** Whatever [round_binary64] gives is a multiple of the power of two that
    53 bits leave over, is as near to [m] as such a multiple gets, and on a
    tie is the even one. *)
Lemma round_binary64_nearest (m v : Z) :
  0 < m ->
  round_binary64 m = Some v ->
  let ulp := 2 ^ Z.max 0 (Z.log2 m + 1 - 53) in
  (ulp | v) /\ 2 * Z.abs (v - m) <= ulp /\
  (2 * Z.abs (v - m) = ulp -> Z.even (v / ulp) = true).
Proof.
  intros Hpos. unfold round_binary64.
  destruct (Z.leb_spec (Z.log2 m + 1 - 53) 0) as [Hfits | Hexcess].
  - intros [= <-]. rewrite Z.max_l by exact Hfits. cbn zeta.
    change (2 ^ 0) with 1. split; [apply Z.divide_1_l|]. split; lia.
  - set (e := Z.log2 m + 1 - 53) in *. rewrite Z.max_r by lia. cbn zeta.
    rewrite !Z.shiftl_mul_pow2, Z.shiftr_div_pow2 by lia. rewrite !Z.mul_1_l.
    assert (Hpow : 0 < 2 ^ e) by (apply Z.pow_pos_nonneg; lia).
    assert (Hhalf : 2 ^ e = 2 * 2 ^ (e - 1)).
    { rewrite <- Z.pow_succ_r by lia. f_equal. lia. }
    pose proof (Z.div_mod m (2 ^ e) ltac:(lia)) as Hm.
    pose proof (Z.mod_pos_bound m (2 ^ e) Hpow) as Hbound.
    set (q := m / 2 ^ e) in *. set (ulp := 2 ^ e) in *.
    set (half := 2 ^ (e - 1)) in *.
    assert (Hdropped : m - q * ulp = m mod ulp) by lia. rewrite Hdropped.
    set (d := m mod ulp) in *.
    destruct (Z.ltb_spec half d) as [Hmore | Hless]; cbn [orb].
    + destruct (Z.leb_spec (2 ^ 1024) ((q + 1) * ulp)); [discriminate|].
      intros [= <-]. split; [apply Z.divide_factor_r|]. split; [lia|]. lia.
    + destruct (Z.eqb_spec d half) as [Htie | Hno]; cbn [andb].
      * destruct (Z.odd q) eqn:Hodd.
        -- destruct (Z.leb_spec (2 ^ 1024) ((q + 1) * ulp)); [discriminate|].
           intros [= <-]. split; [apply Z.divide_factor_r|]. split; [lia|].
           intros _. rewrite Z.div_mul by lia. rewrite Z.even_add, <- Z.negb_odd, Hodd.
           reflexivity.
        -- destruct (Z.leb_spec (2 ^ 1024) (q * ulp)); [discriminate|].
           intros [= <-]. split; [apply Z.divide_factor_r|]. split; [lia|].
           intros _. rewrite Z.div_mul by lia. now rewrite <- Z.negb_odd, Hodd.
      * destruct (Z.leb_spec (2 ^ 1024) (q * ulp)); [discriminate|].
        intros [= <-]. split; [apply Z.divide_factor_r|]. split; lia.
Qed.

(** The Numbers [parseInt] gives where a binary64 and the integers part. *)
Example parseInt10_is_a_Number :
  parseInt10 "9007199254740992" = Num 9007199254740992
  /\ parseInt10 "9007199254740993" = Num 9007199254740992
  /\ parseInt10 "9007199254740995" = Num 9007199254740996
  /\ parseInt10 "123456789012345678901234567890" = Num 123456789012345677877719597056
  /\ parseInt10 "-0" = NegativeZero
  /\ parseInt10 ("1" +:+ pretty (10 ^ 308)) = PositiveInfinity
  /\ parseInt10 ("-1" +:+ pretty (10 ^ 308)) = NegativeInfinity
  /\ parseInt10 " 12px" = Num 12
  /\ parseInt10 "px" = NaN.
Proof. vm_compute. repeat split; reflexivity. Qed.

Lemma number_of_digits_exact (sign m : Z) :
  0 < m < 2 ^ 53 -> number_of_digits sign m = Num (sign * m).
Proof.
  intros Hm. unfold number_of_digits.
  destruct (Z.eqb_spec m 0); [lia|]. now rewrite round_binary64_exact.
Qed.

Lemma parseInt10_pretty_positive (p : positive) :
  Zpos p < 2 ^ 53 ->
  pretty (Npos p) <> "" /\
  parseInt10 (pretty (Npos p)) = Num (Zpos p) /\
  parseInt10 ("-" +:+ pretty (Npos p)) = Num (Zneg p).
Proof.
  intros Hsmall.
  assert (Hgo : pretty (Npos p) = pretty_N_go (Npos p) "") by reflexivity.
  destruct (pretty_N_go_head (Npos p) "" ltac:(lia)) as (d & rest & Hd & Hhead).
  destruct (pretty_N_char_digit d Hd) as (_ & Hspace & Hminus & Hplus).
  pose proof (parse_digits_pretty_N_go (Npos p) "" ltac:(lia)) as Hparse.
  assert (Hexact : forall sign, number_of_digits sign (Z.of_N (Npos p))
                                = Num (sign * Zpos p)).
  { intros sign. apply number_of_digits_exact. cbn [Z.of_N]. lia. }
  rewrite Hgo. split; [|split].
  - rewrite Hhead. discriminate.
  - unfold parseInt10. rewrite Hhead. cbn [trimStart]. rewrite Hspace, Hminus, Hplus.
    rewrite Hhead in Hparse. rewrite Hparse. cbn [parse_digits]. rewrite Hexact.
    reflexivity.
  - unfold parseInt10.
    change ("-" +:+ pretty_N_go (N.pos p) "") with (String "-" (pretty_N_go (N.pos p) "")).
    cbn [trimStart]. change (is_whitespace "-") with false. cbn [Ascii.eqb Bool.eqb].
    rewrite Hparse. cbn [parse_digits]. rewrite Hexact. reflexivity.
Qed.

Lemma parseInt10_pretty (n : Z) :
  Z.abs n < 2 ^ 53 -> pretty n <> "" /\ parseInt10 (pretty n) = Num n.
Proof.
  intros Hsmall. destruct n as [|p|p].
  - split; [discriminate | reflexivity].
  - destruct (parseInt10_pretty_positive p) as (Hne & Hpos & _); [exact Hsmall|].
    now split.
  - destruct (parseInt10_pretty_positive p) as (_ & _ & Hneg); [exact Hsmall|].
    split; [discriminate|]. exact Hneg.
Qed.

(** ** Running programs *)

Section RunFacts.
Context {S C : Type}.
Variable collab : Collaborators S C.

Lemma run_having_called {A : Type} (c : Call) (r : Ran S C A) :
  having_called c r = mkRan (outcome r) (after r) (c :: calls r).
Proof. reflexivity. Qed.

(** A [try] whose [catch] is [handleError]: a result passes through; an
    exception is logged under the action's name and a fresh [Error] with
    its message is thrown instead. *)
Lemma run_try_handleError {A : Type} (action : string) (p : Prog A) (w : World S C) :
  run collab (try_catch p (handleError action)) w =
    match outcome (run collab p w) with
    | Resolved _ => run collab p w
    | Rejected e =>
        mkRan (Rejected (new_Error (err_message e)))
          (logged (error_line action e) (after (run collab p w)))
          (calls (run collab p w))
    end.
Proof.
  revert w. induction p as [a|e|c k IH|c k IH|line k IH]; intros w; simpl.
  - reflexivity.
  - reflexivity.
  - rewrite IH. now destruct (outcome (run collab (k _) _)).
  - rewrite IH. now destruct (outcome (run collab k _)).
  - apply IH.
Qed.
End RunFacts.

(** ** The error wrapper *)

Section Wrapper.
Context {S C : Type}.
Variable collab : Collaborators S C.

Lemma exported_is_guarded_attempt (op : Operation) :
  exported op = try_catch (attempt op) (handleError (action op)).
Proof. destruct op; reflexivity. Qed.

(** C8.  Whatever exception ends the [try] of an exported function - a
    rejected awaited Store or Cache call, or one of the service's own
    checks - the function writes [Error <action>: <message>] to the
    console and rejects with a plain [Error] carrying that message and
    nothing else; a result passes through untouched.  So every kind of
    failure reaches the caller as the same kind of object, told apart by
    its message only.  (A call whose promise is not awaited cannot end the
    [try]: the service never learns how it settled.) *)
Theorem failures_logged_then_flattened (op : Operation) (w : World S C) :
  (forall a, outcome (run collab (attempt op) w) = Resolved a ->
     run collab (exported op) w = run collab (attempt op) w) /\
  (forall e, outcome (run collab (attempt op) w) = Rejected e ->
     run collab (exported op) w
     = mkRan (Rejected (new_Error (err_message e)))
         (logged (error_line (action op) e) (after (run collab (attempt op) w)))
         (calls (run collab (attempt op) w))) /\
  (forall e', outcome (run collab (exported op) w) = Rejected e' ->
     e' = new_Error (err_message e') /\
     exists e, outcome (run collab (attempt op) w) = Rejected e /\
               err_message e' = err_message e /\
               console (after (run collab (exported op) w))
               = (console (after (run collab (attempt op) w))
                    ++ [error_line (action op) e])%list).
Proof.
  rewrite exported_is_guarded_attempt, run_try_handleError.
  destruct (outcome (run collab (attempt op) w)) as [a|e] eqn:Hattempt.
  - split; [reflexivity|]. split; [discriminate|].
    intros e' He'. rewrite Hattempt in He'. discriminate.
  - split; [discriminate|]. split.
    + intros e0 [= <-]. reflexivity.
    + intros e' [= <-]. split; [reflexivity|]. exists e. auto.
Qed.
End Wrapper.

(** A Store failure, with its driver's name and code, comes out as a plain
    [Error] with the same message, after one line on the console. *)
Lemma failures_logged_then_flattened_witness :
  outcome (run (mkCollaborators outage reference_cache)
             (attempt (op_createFeed "alice" "hi" None)) (mkWorld tt ∅ []))
  = Rejected connection_lost /\
  run (mkCollaborators outage reference_cache)
    (feedService.createFeed "alice" "hi" None) (mkWorld tt ∅ [])
  = mkRan (Rejected (new_Error "connection lost"))
      (mkWorld tt ∅ ["Error creating feed: connection lost"])
      [Store_command (feedModel.createFeed "alice" "hi")].
Proof.
  split; [reflexivity|].
  apply (proj1 (proj2 (failures_logged_then_flattened
                         (mkCollaborators outage reference_cache)
                         (op_createFeed "alice" "hi" None) (mkWorld tt ∅ [])))
           connection_lost).
  reflexivity.
Defined.

(** The same for a Cache failure met by an awaited [get] ... *)
Example cache_failure_flattened :
  run (mkCollaborators reference_store unreachable_cache)
    (feedService.getLikeCount "f1") (mkWorld demo_store tt [])
  = mkRan (Rejected (new_Error "connection lost"))
      (mkWorld demo_store tt ["Error getting like count: connection lost"])
      [Cache_call (redisHandle.get "feed:f1:likeCount")].
Proof. reflexivity. Qed.

(** ... and for a check of the service's own. *)
Example validation_failure_flattened :
  run reference (feedService.likeFeed "bob" "f1") demo_world
  = mkRan (Rejected AlreadyLiked)
      (logged "Error liking feed: Already liked this feed" demo_world)
      [Store_query (feedModel.getFeedById "f1");
       Store_query (feedModel.checkLikeStatus "bob" "f1")].
Proof. vm_compute. reflexivity. Qed.

(** ** The authorization gate *)

(** Unfold the service function at the head of the goal and run it, using
    the equations at hand for what the collaborators answer. *)
Ltac by_running :=
  cbn;
  repeat (match goal with
          | H : _ = _ |- _ => rewrite H
          end; cbn).

Ltac enter f :=
  unfold f; rewrite run_try_handleError; cbn.

Ltac now_turned_away :=
  unfold turned_away; cbn; repeat split; repeat constructor.

Section Gate.
Context {S C : Type}.
Variable collab : Collaborators S C.
Variable w : World S C.

Lemma updateFeed_gated feed_id firebase_uid description :
  gated collab w (trim feed_id) firebase_uid
    (feedService.updateFeed feed_id firebase_uid description).
Proof.
  split.
  - intros feed Hfeed Hne%String.eqb_neq. enter feedService.updateFeed.
    by_running. now_turned_away.
  - intros Hfeed. enter feedService.updateFeed. by_running. now_turned_away.
Qed.

Lemma deleteFeed_gated feed_id firebase_uid :
  gated collab w (trim feed_id) firebase_uid
    (feedService.deleteFeed feed_id firebase_uid).
Proof.
  split.
  - intros feed Hfeed Hne%String.eqb_neq. enter feedService.deleteFeed.
    by_running. now_turned_away.
  - intros Hfeed. enter feedService.deleteFeed. by_running. now_turned_away.
Qed.

Lemma updateFeedImage_gated firebase_uid feed_id image_id newImageUrl :
  gated collab w feed_id firebase_uid
    (feedService.updateFeedImage firebase_uid feed_id image_id newImageUrl).
Proof.
  split.
  - intros feed Hfeed Hne%String.eqb_neq. enter feedService.updateFeedImage.
    by_running. now_turned_away.
  - intros Hfeed. enter feedService.updateFeedImage. by_running. now_turned_away.
Qed.

Lemma deleteFeedImage_gated firebase_uid feed_id image_id :
  gated collab w feed_id firebase_uid
    (feedService.deleteFeedImage firebase_uid feed_id image_id).
Proof.
  split.
  - intros feed Hfeed Hne%String.eqb_neq. enter feedService.deleteFeedImage.
    by_running. now_turned_away.
  - intros Hfeed. enter feedService.deleteFeedImage. by_running. now_turned_away.
Qed.

(** C2.  [updateFeed], [deleteFeed], [updateFeedImage] and
    [deleteFeedImage] load the feed first.  When the Store has the feed
    and its author is not the acting identity, the operation is rejected
    with "Permission denied"; when the Store has no such feed, with "Feed
    not found".  Either way the Store is left as it was and no write is
    sent to it.  ([updateFeed] and [deleteFeed] load the feed under the
    trimmed id, the image operations under the id as given.) *)
Theorem authorization_gate
    (feed_id firebase_uid description image_id newImageUrl : string) :
  gated collab w (trim feed_id) firebase_uid
    (feedService.updateFeed feed_id firebase_uid description) /\
  gated collab w (trim feed_id) firebase_uid
    (feedService.deleteFeed feed_id firebase_uid) /\
  gated collab w feed_id firebase_uid
    (feedService.updateFeedImage firebase_uid feed_id image_id newImageUrl) /\
  gated collab w feed_id firebase_uid
    (feedService.deleteFeedImage firebase_uid feed_id image_id).
Proof.
  split; [|split; [|split]].
  - apply updateFeed_gated.
  - apply deleteFeed_gated.
  - apply updateFeedImage_gated.
  - apply deleteFeedImage_gated.
Qed.
End Gate.

Lemma authorization_gate_witness :
  (turned_away (run reference (feedService.updateFeed "f1" "mallory" "x") demo_world)
     demo_world PermissionDenied /\
   turned_away (run reference (feedService.deleteFeed "f1" "mallory") demo_world)
     demo_world PermissionDenied /\
   turned_away
     (run reference (feedService.updateFeedImage "mallory" "f1" "i1" "z.jpg") demo_world)
     demo_world PermissionDenied /\
   turned_away (run reference (feedService.deleteFeedImage "mallory" "f1" "i1") demo_world)
     demo_world PermissionDenied) /\
  (turned_away (run reference (feedService.updateFeed "f9" "alice" "x") demo_world)
     demo_world NotFound /\
   turned_away (run reference (feedService.deleteFeed "f9" "alice") demo_world)
     demo_world NotFound /\
   turned_away
     (run reference (feedService.updateFeedImage "alice" "f9" "i1" "z.jpg") demo_world)
     demo_world NotFound /\
   turned_away (run reference (feedService.deleteFeedImage "alice" "f9" "i1") demo_world)
     demo_world NotFound).
Proof.
  destruct (authorization_gate reference demo_world "f1" "mallory" "x" "i1" "z.jpg")
    as ([D1 _] & [D2 _] & [D3 _] & [D4 _]).
  destruct (authorization_gate reference demo_world "f9" "alice" "x" "i1" "z.jpg")
    as ([_ N1] & [_ N2] & [_ N3] & [_ N4]).
  split; repeat split.
  - apply (D1 alice_feed); [reflexivity | discriminate].
  - apply (D2 alice_feed); [reflexivity | discriminate].
  - apply (D3 alice_feed); [reflexivity | discriminate].
  - apply (D4 alice_feed); [reflexivity | discriminate].
  - apply N1. reflexivity.
  - apply N2. reflexivity.
  - apply N3. reflexivity.
  - apply N4. reflexivity.
Defined.

(** The scenario of the specification: Alice's feed, Mallory's update is
    refused, Alice's goes through. *)
Example only_the_author_updates :
  outcome (run reference (feedService.updateFeed "f1" "mallory" "x") demo_world)
  = Rejected PermissionDenied
  /\ outcome (run reference (feedService.updateFeed "f1" "alice" "x") demo_world)
     = Resolved (receipt 1).
Proof. vm_compute. split; reflexivity. Qed.

(** ** Counter reads *)

Section Counters.
Context {S C : Type}.
Variable collab : Collaborators S C.
Variable w : World S C.

Lemma getLikeCount_hit (feed_id v : string) :
  v <> "" ->
  cache_get (the_cache collab) (likeCount_key (trim feed_id)) (cache w)
    = Resolved (Some v) ->
  run collab (feedService.getLikeCount feed_id) w
  = mkRan (Resolved (parseInt10 v)) w
      [Cache_call (redisHandle.get (likeCount_key (trim feed_id)))].
Proof.
  intros Hv Hget. destruct v as [|c rest]; [congruence|].
  enter feedService.getLikeCount. by_running. reflexivity.
Qed.

Lemma getCommentCount_hit (feed_id v : string) :
  v <> "" ->
  cache_get (the_cache collab) (commentCount_key (trim feed_id)) (cache w)
    = Resolved (Some v) ->
  run collab (feedService.getCommentCount feed_id) w
  = mkRan (Resolved (parseInt10 v)) w
      [Cache_call (redisHandle.get (commentCount_key (trim feed_id)))].
Proof.
  intros Hv Hget. destruct v as [|c rest]; [congruence|].
  enter feedService.getCommentCount. by_running. reflexivity.
Qed.

Lemma getLikeCount_miss (feed_id : string) (v : option string) (feed : Feed.t) (n : Z) :
  cache_miss v ->
  store_query (the_store collab) (feedModel.getFeedById (trim feed_id)) (store w)
    = Resolved (Some feed) ->
  cache_get (the_cache collab) (likeCount_key (trim feed_id)) (cache w) = Resolved v ->
  store_query (the_store collab) (feedModel.getLikeCount (trim feed_id)) (store w)
    = Resolved n ->
  run collab (feedService.getLikeCount feed_id) w
  = mkRan (Resolved (Num n))
      (with_cache
         (snd (cache_setex (the_cache collab) (likeCount_key (trim feed_id)) 600 n
                 (cache w))) w)
      [Cache_call (redisHandle.get (likeCount_key (trim feed_id)));
       Store_query (feedModel.getFeedById (trim feed_id));
       Store_query (feedModel.getLikeCount (trim feed_id));
       Cache_call (redisHandle.setex (likeCount_key (trim feed_id)) 600 n)].
Proof.
  intros [-> | ->] Hfeed Hget Hcount.
  all: enter feedService.getLikeCount; by_running; reflexivity.
Qed.

Lemma getCommentCount_miss (feed_id : string) (v : option string) (feed : Feed.t) (n : Z) :
  cache_miss v ->
  store_query (the_store collab) (feedModel.getFeedById (trim feed_id)) (store w)
    = Resolved (Some feed) ->
  cache_get (the_cache collab) (commentCount_key (trim feed_id)) (cache w) = Resolved v ->
  store_query (the_store collab) (feedModel.getCommentCount (trim feed_id)) (store w)
    = Resolved n ->
  run collab (feedService.getCommentCount feed_id) w
  = mkRan (Resolved (Num n))
      (with_cache
         (snd (cache_setex (the_cache collab) (commentCount_key (trim feed_id)) 600 n
                 (cache w))) w)
      [Cache_call (redisHandle.get (commentCount_key (trim feed_id)));
       Store_query (feedModel.getFeedById (trim feed_id));
       Store_query (feedModel.getCommentCount (trim feed_id));
       Cache_call (redisHandle.setex (commentCount_key (trim feed_id)) 600 n)].
Proof.
  intros [-> | ->] Hfeed Hget Hcount.
  all: enter feedService.getCommentCount; by_running; reflexivity.
Qed.

(** C3.  When the Cache answers [get] with a non-empty string [v] for the
    counter key of the (trimmed) feed id, [getLikeCount] (resp.
    [getCommentCount]) resolves with [parseInt(v, 10)] - the Number that
    JavaScript reads off the decimal digits of [v], rounded as a binary64
    where they are too many - and that [get] is the only call it makes: the
    Store is never asked, whatever it holds, so also when it no longer has
    the feed.  The world is left exactly as it was. *)
Theorem cache_hit_is_trusted (feed_id v : string) :
  v <> "" ->
  (cache_get (the_cache collab) (likeCount_key (trim feed_id)) (cache w)
     = Resolved (Some v) ->
   run collab (feedService.getLikeCount feed_id) w
   = mkRan (Resolved (parseInt10 v)) w
       [Cache_call (redisHandle.get (likeCount_key (trim feed_id)))]) /\
  (cache_get (the_cache collab) (commentCount_key (trim feed_id)) (cache w)
     = Resolved (Some v) ->
   run collab (feedService.getCommentCount feed_id) w
   = mkRan (Resolved (parseInt10 v)) w
       [Cache_call (redisHandle.get (commentCount_key (trim feed_id)))]).
Proof.
  intros Hv. split; intros Hget.
  - now apply getLikeCount_hit.
  - now apply getCommentCount_hit.
Qed.

(** C4.  On a cache miss (no value, or the empty string) for a feed the
    Store does not have, [getLikeCount] (resp. [getCommentCount]) is
    rejected with "Feed not found".  It has made two calls, the [get] and
    the existence check: no [setex], and the Cache is as it was. *)
Theorem miss_on_absent_feed_is_not_found (feed_id : string) (v : option string) :
  cache_miss v ->
  store_query (the_store collab) (feedModel.getFeedById (trim feed_id)) (store w)
    = Resolved None ->
  (cache_get (the_cache collab) (likeCount_key (trim feed_id)) (cache w) = Resolved v ->
   run collab (feedService.getLikeCount feed_id) w
   = mkRan (Rejected NotFound) (logged (error_line "getting like count" NotFound) w)
       [Cache_call (redisHandle.get (likeCount_key (trim feed_id)));
        Store_query (feedModel.getFeedById (trim feed_id))]) /\
  (cache_get (the_cache collab) (commentCount_key (trim feed_id)) (cache w) = Resolved v ->
   run collab (feedService.getCommentCount feed_id) w
   = mkRan (Rejected NotFound) (logged (error_line "getting comment count" NotFound) w)
       [Cache_call (redisHandle.get (commentCount_key (trim feed_id)));
        Store_query (feedModel.getFeedById (trim feed_id))]).
Proof.
  intros [-> | ->] Hfeed; split; intros Hget.
  all: first [enter feedService.getLikeCount | enter feedService.getCommentCount].
  all: by_running; reflexivity.
Qed.

(** C5.  On a cache miss for a feed the Store has, [getLikeCount] (resp.
    [getCommentCount]) asks the Store for the count [n], calls
    [setex(key, 600, n)] on [feed:<id>:likeCount] (resp.
    [feed:<id>:commentCount]) and resolves with [n].  This holds for every
    Cache: the [setex] is not awaited, so whether it resolves or rejects,
    and whatever it does to the Cache, the read resolves with [n]. *)
Theorem counter_read_through_on_miss
    (feed_id : string) (v : option string) (feed : Feed.t) (n : Z) :
  cache_miss v ->
  store_query (the_store collab) (feedModel.getFeedById (trim feed_id)) (store w)
    = Resolved (Some feed) ->
  (cache_get (the_cache collab) (likeCount_key (trim feed_id)) (cache w) = Resolved v ->
   store_query (the_store collab) (feedModel.getLikeCount (trim feed_id)) (store w)
     = Resolved n ->
   run collab (feedService.getLikeCount feed_id) w
   = mkRan (Resolved (Num n))
       (with_cache
          (snd (cache_setex (the_cache collab) (likeCount_key (trim feed_id)) 600 n
                  (cache w))) w)
       [Cache_call (redisHandle.get (likeCount_key (trim feed_id)));
        Store_query (feedModel.getFeedById (trim feed_id));
        Store_query (feedModel.getLikeCount (trim feed_id));
        Cache_call (redisHandle.setex (likeCount_key (trim feed_id)) 600 n)]) /\
  (cache_get (the_cache collab) (commentCount_key (trim feed_id)) (cache w) = Resolved v ->
   store_query (the_store collab) (feedModel.getCommentCount (trim feed_id)) (store w)
     = Resolved n ->
   run collab (feedService.getCommentCount feed_id) w
   = mkRan (Resolved (Num n))
       (with_cache
          (snd (cache_setex (the_cache collab) (commentCount_key (trim feed_id)) 600 n
                  (cache w))) w)
       [Cache_call (redisHandle.get (commentCount_key (trim feed_id)));
        Store_query (feedModel.getFeedById (trim feed_id));
        Store_query (feedModel.getCommentCount (trim feed_id));
        Cache_call (redisHandle.setex (commentCount_key (trim feed_id)) 600 n)]).
Proof.
  intros Hmiss Hfeed; split; intros Hget Hcount.
  - now apply getLikeCount_miss with (v := v) (feed := feed).
  - now apply getCommentCount_miss with (v := v) (feed := feed).
Qed.
End Counters.

(** Over the reference Cache, a read that had to go to the Store is followed
    by a read that does not: for a count that a Number holds exactly, it
    resolves with the same number, and its only call is the [get]. *)
Lemma reference_getLikeCount_twice {S : Type} (st : StoreModel S)
    (w : World S (gmap string (Z * string))) (feed_id : string) (feed : Feed.t) (n : Z) :
  Z.abs n < 2 ^ 53 ->
  cache w !! likeCount_key (trim feed_id) = None ->
  store_query st (feedModel.getFeedById (trim feed_id)) (store w) = Resolved (Some feed) ->
  store_query st (feedModel.getLikeCount (trim feed_id)) (store w) = Resolved n ->
  let first := run (mkCollaborators st reference_cache)
                 (feedService.getLikeCount feed_id) w in
  outcome first = Resolved (Num n) /\
  run (mkCollaborators st reference_cache) (feedService.getLikeCount feed_id) (after first)
  = mkRan (Resolved (Num n)) (after first)
      [Cache_call (redisHandle.get (likeCount_key (trim feed_id)))].
Proof.
  intros Hsmall Hmiss Hfeed Hcount. cbn zeta.
  rewrite (getLikeCount_miss (mkCollaborators st reference_cache) w feed_id None feed n);
    [|now left | exact Hfeed | cbn; now rewrite Hmiss | exact Hcount].
  split; [reflexivity|]. cbn [after].
  destruct (parseInt10_pretty n Hsmall) as [Hne Hback]. rewrite <- Hback.
  apply getLikeCount_hit; [exact Hne|].
  cbn. now rewrite lookup_insert_eq.
Qed.

Lemma reference_getCommentCount_twice {S : Type} (st : StoreModel S)
    (w : World S (gmap string (Z * string))) (feed_id : string) (feed : Feed.t) (n : Z) :
  Z.abs n < 2 ^ 53 ->
  cache w !! commentCount_key (trim feed_id) = None ->
  store_query st (feedModel.getFeedById (trim feed_id)) (store w) = Resolved (Some feed) ->
  store_query st (feedModel.getCommentCount (trim feed_id)) (store w) = Resolved n ->
  let first := run (mkCollaborators st reference_cache)
                 (feedService.getCommentCount feed_id) w in
  outcome first = Resolved (Num n) /\
  run (mkCollaborators st reference_cache) (feedService.getCommentCount feed_id)
    (after first)
  = mkRan (Resolved (Num n)) (after first)
      [Cache_call (redisHandle.get (commentCount_key (trim feed_id)))].
Proof.
  intros Hsmall Hmiss Hfeed Hcount. cbn zeta.
  rewrite (getCommentCount_miss (mkCollaborators st reference_cache) w feed_id None feed n);
    [|now left | exact Hfeed | cbn; now rewrite Hmiss | exact Hcount].
  split; [reflexivity|]. cbn [after].
  destruct (parseInt10_pretty n Hsmall) as [Hne Hback]. rewrite <- Hback.
  apply getCommentCount_hit; [exact Hne|].
  cbn. now rewrite lookup_insert_eq.
Qed.

Lemma cache_hit_is_trusted_witness :
  run reference (feedService.getLikeCount " f1 ") stale_world
  = mkRan (Resolved (Num 7)) stale_world [Cache_call (redisHandle.get "feed:f1:likeCount")]
  /\ run reference (feedService.getCommentCount " f1 ") stale_world
     = mkRan (Resolved (Num 2)) stale_world
         [Cache_call (redisHandle.get "feed:f1:commentCount")]
  /\ store_query reference_store (feedModel.getFeedById "f1") (store stale_world)
     = Resolved None
  /\ run reference (feedService.getLikeCount "f1")
       (mkWorld demo_store {[ "feed:f1:likeCount" := (600, "9007199254740993") ]} [])
     = mkRan (Resolved (Num 9007199254740992))
         (mkWorld demo_store {[ "feed:f1:likeCount" := (600, "9007199254740993") ]} [])
         [Cache_call (redisHandle.get "feed:f1:likeCount")].
Proof.
  split; [|split; [|split; [reflexivity|]]].
  - apply (proj1 (cache_hit_is_trusted reference stale_world " f1 " "7" ltac:(discriminate))).
    reflexivity.
  - apply (proj2 (cache_hit_is_trusted reference stale_world " f1 " "2" ltac:(discriminate))).
    reflexivity.
  - apply (proj1 (cache_hit_is_trusted reference
                    (mkWorld demo_store
                       {[ "feed:f1:likeCount" := (600, "9007199254740993") ]} [])
                    "f1" "9007199254740993" ltac:(discriminate))).
    reflexivity.
Defined.

Lemma miss_on_absent_feed_is_not_found_witness :
  run reference (feedService.getLikeCount "f9") demo_world
  = mkRan (Rejected NotFound)
      (logged "Error getting like count: Feed not found" demo_world)
      [Cache_call (redisHandle.get "feed:f9:likeCount");
       Store_query (feedModel.getFeedById "f9")]
  /\ run reference (feedService.getCommentCount "f9")
       (mkWorld demo_store {[ "feed:f9:commentCount" := (600, "") ]} [])
     = mkRan (Rejected NotFound)
         (logged "Error getting comment count: Feed not found"
            (mkWorld demo_store {[ "feed:f9:commentCount" := (600, "") ]} []))
         [Cache_call (redisHandle.get "feed:f9:commentCount");
          Store_query (feedModel.getFeedById "f9")].
Proof.
  split.
  - apply (proj1 (miss_on_absent_feed_is_not_found reference demo_world "f9" None
                    ltac:(left; reflexivity) ltac:(reflexivity))).
    reflexivity.
  - apply (proj2 (miss_on_absent_feed_is_not_found reference
                    (mkWorld demo_store {[ "feed:f9:commentCount" := (600, "") ]} [])
                    "f9" (Some "") ltac:(right; reflexivity) ltac:(reflexivity))).
    reflexivity.
Defined.

(** The read resolves although the Cache rejects the [setex]. *)
Lemma counter_read_through_on_miss_witness :
  fst (cache_setex broken_cache "feed:f1:likeCount" 600 1 tt) = Rejected connection_lost
  /\ run (mkCollaborators reference_store broken_cache)
       (feedService.getLikeCount "f1") (mkWorld demo_store tt [])
     = mkRan (Resolved (Num 1)) (mkWorld demo_store tt [])
         [Cache_call (redisHandle.get "feed:f1:likeCount");
          Store_query (feedModel.getFeedById "f1");
          Store_query (feedModel.getLikeCount "f1");
          Cache_call (redisHandle.setex "feed:f1:likeCount" 600 1)]
  /\ run (mkCollaborators reference_store broken_cache)
       (feedService.getCommentCount "f1") (mkWorld demo_store tt [])
     = mkRan (Resolved (Num 3)) (mkWorld demo_store tt [])
         [Cache_call (redisHandle.get "feed:f1:commentCount");
          Store_query (feedModel.getFeedById "f1");
          Store_query (feedModel.getCommentCount "f1");
          Cache_call (redisHandle.setex "feed:f1:commentCount" 600 3)].
Proof.
  split; [reflexivity|]. split.
  - apply (proj1 (counter_read_through_on_miss
                    (mkCollaborators reference_store broken_cache)
                    (mkWorld demo_store tt []) "f1" None alice_feed 1
                    ltac:(left; reflexivity) ltac:(reflexivity))).
    + reflexivity.
    + vm_compute. reflexivity.
  - apply (proj2 (counter_read_through_on_miss
                    (mkCollaborators reference_store broken_cache)
                    (mkWorld demo_store tt []) "f1" None alice_feed 3
                    ltac:(left; reflexivity) ltac:(reflexivity))).
    + reflexivity.
    + reflexivity.
Defined.

(** A cached ["0"] is a hit like any other non-empty string, here for a
    feed the Store has never had. *)
Example cached_zero_is_a_hit :
  run reference (feedService.getCommentCount "f2") warm_world
  = mkRan (Resolved (Num 0)) warm_world
      [Cache_call (redisHandle.get "feed:f2:commentCount")].
Proof. vm_compute. reflexivity. Qed.

(** With the reference Cache the entry is there afterwards, under 600
    seconds, and the next read is served from it. *)
Example read_through_then_hit :
  let first := run reference (feedService.getLikeCount "f1") demo_world in
  cache (after first) !! "feed:f1:likeCount" = Some (600, "1")
  /\ run reference (feedService.getLikeCount "f1") (after first)
     = mkRan (Resolved (Num 1)) (after first)
         [Cache_call (redisHandle.get "feed:f1:likeCount")].
Proof. vm_compute. split; reflexivity. Qed.

(** ** The image floor *)

Lemma delete_row_filter_other {A : Type} (p : A -> bool) (q : A -> Prop)
    `{forall x, Decision (q x)} (rows : list A) :
  (forall x, p x = true -> ~ q x) ->
  filter q (delete_row p rows) = filter q rows.
Proof.
  intros Hpq. induction rows as [|r rest IH]; simpl; [reflexivity|].
  destruct (p r) eqn:Hr.
  - rewrite filter_cons_False by auto. reflexivity.
  - rewrite !filter_cons, IH. reflexivity.
Qed.

Lemma delete_row_filter_length {A : Type} (p : A -> bool) (q : A -> Prop)
    `{forall x, Decision (q x)} (rows : list A) :
  (length (filter q rows) <= S (length (filter q (delete_row p rows))))%nat.
Proof.
  induction rows as [|r rest IH]; simpl; [lia|].
  destruct (p r).
  - rewrite filter_cons. destruct (decide (q r)); simpl; lia.
  - rewrite !filter_cons. destruct (decide (q r)); simpl; lia.
Qed.

Section Images.
Context {S C : Type}.
Variable collab : Collaborators S C.
Variable w : World S C.

Lemma deleteFeedImage_last_image firebase_uid feed_id image_id feed n :
  store_query (the_store collab) (feedModel.getFeedById feed_id) (store w)
    = Resolved (Some feed) ->
  Feed.firebase_uid feed = firebase_uid ->
  store_query (the_store collab) (feedModel.getFeedImageCount feed_id) (store w)
    = Resolved n ->
  n <= 1 ->
  run collab (feedService.deleteFeedImage firebase_uid feed_id image_id) w
  = mkRan (Rejected InvariantViolation)
      (logged (error_line "deleting feed image" InvariantViolation) w)
      [Store_query (feedModel.getFeedById feed_id);
       Store_query (feedModel.getFeedImageCount feed_id)].
Proof.
  intros Hfeed Hauthor%String.eqb_eq Hcount Hle%Z.leb_le.
  enter feedService.deleteFeedImage. by_running. reflexivity.
Qed.

Lemma deleteFeedImage_from_two firebase_uid feed_id image_id feed n r s' :
  store_query (the_store collab) (feedModel.getFeedById feed_id) (store w)
    = Resolved (Some feed) ->
  Feed.firebase_uid feed = firebase_uid ->
  store_query (the_store collab) (feedModel.getFeedImageCount feed_id) (store w)
    = Resolved n ->
  2 <= n ->
  store_command (the_store collab) (feedModel.deleteFeedImage feed_id image_id) (store w)
    = (Resolved r, s') ->
  run collab (feedService.deleteFeedImage firebase_uid feed_id image_id) w
  = mkRan (Resolved r) (with_store s' w)
      [Store_query (feedModel.getFeedById feed_id);
       Store_query (feedModel.getFeedImageCount feed_id);
       Store_command (feedModel.deleteFeedImage feed_id image_id)].
Proof.
  intros Hfeed Hauthor%String.eqb_eq Hcount Htwo Hwrite.
  assert (Hleb : (n <=? 1) = false) by (apply Z.leb_gt; lia).
  enter feedService.deleteFeedImage. by_running. reflexivity.
Qed.

Lemma deleteFeedImage_writes_from_two firebase_uid feed_id image_id c :
  In c (calls (run collab (feedService.deleteFeedImage firebase_uid feed_id image_id) w)) ->
  is_store_command c = true ->
  c = Store_command (feedModel.deleteFeedImage feed_id image_id) /\
  exists n,
    store_query (the_store collab) (feedModel.getFeedImageCount feed_id) (store w)
      = Resolved n /\ 2 <= n.
Proof.
  enter feedService.deleteFeedImage.
  destruct (store_query (the_store collab) (feedModel.getFeedById feed_id) (store w))
    as [[feed|]|e] eqn:Hfeed; cbn in *.
  2,3: intros [<-|[]]; discriminate.
  destruct (Feed.firebase_uid feed =? firebase_uid)%string; cbn.
  2: intros [<-|[]]; discriminate.
  destruct (store_query (the_store collab) (feedModel.getFeedImageCount feed_id) (store w))
    as [n|e] eqn:Hcount; cbn in *.
  2: intros [<-|[<-|[]]]; discriminate.
  destruct (Z.leb_spec n 1); cbn.
  - intros [<-|[<-|[]]]; discriminate.
  - destruct (store_command (the_store collab)
                (feedModel.deleteFeedImage feed_id image_id) (store w)) as [[r|e] s'];
      cbn.
    all: intros [<-|[<-|[<-|[]]]]; try discriminate.
    all: intros _; split; [reflexivity|]; exists n; split; [reflexivity|lia].
Qed.
End Images.

(** In the reference Store, whichever Cache is at hand, a feed that has an
    image still has one after [deleteFeedImage], whatever its arguments. *)
Lemma deleteFeedImage_keeps_an_image {C : Type} (cm : CacheModel C)
    (w : World Store C) (firebase_uid feed_id image_id g : string) :
  0 < image_count g (store w) ->
  0 < image_count g
        (store (after (run (mkCollaborators reference_store cm)
                         (feedService.deleteFeedImage firebase_uid feed_id image_id) w))).
Proof.
  intros Hhas. enter feedService.deleteFeedImage.
  destruct (feeds (store w) !! feed_id) as [feed|]; cbn; [|exact Hhas].
  destruct (Feed.firebase_uid feed =? firebase_uid)%string; cbn; [|exact Hhas].
  destruct (Z.leb_spec (image_count feed_id (store w)) 1) as [|Htwo]; cbn; [exact Hhas|].
  unfold image_count in *. cbn.
  destruct (decide (g = feed_id)) as [->|Hother].
  - pose proof (delete_row_filter_length (is_image feed_id image_id)
                  (fun i => image_of feed_id i = true) (images (store w))). lia.
  - rewrite delete_row_filter_other; [exact Hhas|].
    intros i [Hi _]%andb_prop Hg. unfold image_of in Hg.
    apply String.eqb_eq in Hi, Hg. congruence.
Qed.

(** C6.  For an existing feed and its author, [deleteFeedImage] is rejected
    with "Can't delete last image, need at least one image" whenever the
    Store counts at most one image, after the two reads and no write.  A
    write is sent to the Store only after it has counted at least two
    images, and it is the deletion of that one image; from two images on,
    the deletion is sent.  Hence (in the reference Store, where a deletion
    by id removes at most one row) no feed that has an image is left without
    one by [deleteFeedImage]. *)
Theorem image_floor :
  (forall (S C : Type) (collab : Collaborators S C) (w : World S C)
          (firebase_uid feed_id image_id : string) (feed : Feed.t) (n : Z),
      store_query (the_store collab) (feedModel.getFeedById feed_id) (store w)
        = Resolved (Some feed) ->
      Feed.firebase_uid feed = firebase_uid ->
      store_query (the_store collab) (feedModel.getFeedImageCount feed_id) (store w)
        = Resolved n ->
      n <= 1 ->
      run collab (feedService.deleteFeedImage firebase_uid feed_id image_id) w
      = mkRan (Rejected InvariantViolation)
          (logged (error_line "deleting feed image" InvariantViolation) w)
          [Store_query (feedModel.getFeedById feed_id);
           Store_query (feedModel.getFeedImageCount feed_id)]) /\
  (forall (S C : Type) (collab : Collaborators S C) (w : World S C)
          (firebase_uid feed_id image_id : string) (c : Call),
      In c (calls (run collab (feedService.deleteFeedImage firebase_uid feed_id image_id) w)) ->
      is_store_command c = true ->
      c = Store_command (feedModel.deleteFeedImage feed_id image_id) /\
      exists n,
        store_query (the_store collab) (feedModel.getFeedImageCount feed_id) (store w)
          = Resolved n /\ 2 <= n) /\
  (forall (S C : Type) (collab : Collaborators S C) (w : World S C)
          (firebase_uid feed_id image_id : string) (feed : Feed.t) (n : Z)
          (r : Receipt) (s' : S),
      store_query (the_store collab) (feedModel.getFeedById feed_id) (store w)
        = Resolved (Some feed) ->
      Feed.firebase_uid feed = firebase_uid ->
      store_query (the_store collab) (feedModel.getFeedImageCount feed_id) (store w)
        = Resolved n ->
      2 <= n ->
      store_command (the_store collab) (feedModel.deleteFeedImage feed_id image_id) (store w)
        = (Resolved r, s') ->
      run collab (feedService.deleteFeedImage firebase_uid feed_id image_id) w
      = mkRan (Resolved r) (with_store s' w)
          [Store_query (feedModel.getFeedById feed_id);
           Store_query (feedModel.getFeedImageCount feed_id);
           Store_command (feedModel.deleteFeedImage feed_id image_id)]) /\
  (forall (C : Type) (cm : CacheModel C) (w : World Store C)
          (firebase_uid feed_id image_id g : string),
      0 < image_count g (store w) ->
      0 < image_count g
            (store (after (run (mkCollaborators reference_store cm)
                             (feedService.deleteFeedImage firebase_uid feed_id image_id) w)))).
Proof.
  split; [|split; [|split]].
  - intros. now apply deleteFeedImage_last_image with (feed := feed) (n := n).
  - intros. now apply deleteFeedImage_writes_from_two with (firebase_uid := firebase_uid).
  - intros. now apply deleteFeedImage_from_two with (feed := feed) (n := n).
  - intros. now apply deleteFeedImage_keeps_an_image.
Qed.

Lemma image_floor_witness :
  run reference (feedService.deleteFeedImage "alice" "f1" "i2") last_image_world
  = mkRan (Rejected InvariantViolation)
      (logged "Error deleting feed image: Can't delete last image, need at least one image"
         last_image_world)
      [Store_query (feedModel.getFeedById "f1");
       Store_query (feedModel.getFeedImageCount "f1")]
  /\ (exists n, store_query reference_store (feedModel.getFeedImageCount "f1") demo_store
                = Resolved n /\ 2 <= n)
  /\ outcome (run reference (feedService.deleteFeedImage "alice" "f1" "i1") demo_world)
     = Resolved (receipt 1)
  /\ 0 < image_count "f1"
          (store (after (run reference (feedService.deleteFeedImage "alice" "f1" "i1")
                           demo_world))).
Proof.
  destruct image_floor as (Hlast & Htwo & Hsent & Hkeeps).
  split; [|split; [|split]].
  - apply (Hlast _ _ reference last_image_world "alice" "f1" "i2" alice_feed 1);
      [reflexivity | reflexivity | reflexivity | lia].
  - apply (Htwo _ _ reference demo_world "alice" "f1" "i1"
             (Store_command (feedModel.deleteFeedImage "f1" "i1"))).
    + vm_compute. tauto.
    + reflexivity.
  - rewrite (Hsent _ _ reference demo_world "alice" "f1" "i1" alice_feed 2 (receipt 1)
               (mkStore (feeds demo_store) [Image.mk "i2" "f1" "b.jpg"] (likes demo_store)
                  (comments demo_store) (next_id demo_store)));
      [reflexivity | reflexivity | reflexivity | reflexivity | lia | reflexivity].
  - apply (Hkeeps _ reference_cache demo_world "alice" "f1" "i1" "f1"). reflexivity.
Defined.

(** The scenario of the specification: a feed created with two images loses
    the first, keeps the second. *)
Example two_images_then_one :
  let created := run reference
                   (feedService.createFeed "carol" "hello" (Some ["a.jpg"; "b.jpg"]))
                   demo_world in
  let first := run reference (feedService.deleteFeedImage "carol" "f3" "i4")
                 (after created) in
  let second := run reference (feedService.deleteFeedImage "carol" "f3" "i5")
                  (after first) in
  outcome created = Resolved "f3"
  /\ image_count "f3" (store (after created)) = 2
  /\ outcome first = Resolved (receipt 1)
  /\ image_count "f3" (store (after first)) = 1
  /\ outcome second = Rejected InvariantViolation
  /\ image_count "f3" (store (after second)) = 1.
Proof. vm_compute. repeat split; reflexivity. Qed.

(** ** Like and unlike *)

Section Likes.
Context {S C : Type}.
Variable collab : Collaborators S C.
Variable w : World S C.
Variables firebase_uid feed_id : string.

Lemma likeFeed_from_not_liked feed r s' :
  store_query (the_store collab) (feedModel.getFeedById (trim feed_id)) (store w)
    = Resolved (Some feed) ->
  store_query (the_store collab) (feedModel.checkLikeStatus firebase_uid (trim feed_id))
    (store w) = Resolved false ->
  store_command (the_store collab) (feedModel.likeFeed firebase_uid (trim feed_id))
    (store w) = (Resolved r, s') ->
  run collab (feedService.likeFeed firebase_uid feed_id) w
  = mkRan (Resolved true)
      (mkWorld s'
         (snd (cache_del (the_cache collab) (likeCount_key (trim feed_id)) (cache w)))
         (console w))
      [Store_query (feedModel.getFeedById (trim feed_id));
       Store_query (feedModel.checkLikeStatus firebase_uid (trim feed_id));
       Store_command (feedModel.likeFeed firebase_uid (trim feed_id));
       Cache_call (redisHandle.del (likeCount_key (trim feed_id)))].
Proof.
  intros Hfeed Hstatus Hwrite. enter feedService.likeFeed. by_running. reflexivity.
Qed.

Lemma likeFeed_from_liked feed :
  store_query (the_store collab) (feedModel.getFeedById (trim feed_id)) (store w)
    = Resolved (Some feed) ->
  store_query (the_store collab) (feedModel.checkLikeStatus firebase_uid (trim feed_id))
    (store w) = Resolved true ->
  run collab (feedService.likeFeed firebase_uid feed_id) w
  = mkRan (Rejected AlreadyLiked) (logged (error_line "liking feed" AlreadyLiked) w)
      [Store_query (feedModel.getFeedById (trim feed_id));
       Store_query (feedModel.checkLikeStatus firebase_uid (trim feed_id))].
Proof.
  intros Hfeed Hstatus. enter feedService.likeFeed. by_running. reflexivity.
Qed.

Lemma likeFeed_only_from_not_liked b :
  outcome (run collab (feedService.likeFeed firebase_uid feed_id) w) = Resolved b ->
  b = true /\
  (exists feed,
      store_query (the_store collab) (feedModel.getFeedById (trim feed_id)) (store w)
        = Resolved (Some feed)) /\
  store_query (the_store collab) (feedModel.checkLikeStatus firebase_uid (trim feed_id))
    (store w) = Resolved false.
Proof.
  enter feedService.likeFeed.
  destruct (store_query (the_store collab) (feedModel.getFeedById (trim feed_id))
              (store w)) as [[feed|]|e]; cbn in *; try discriminate.
  destruct (store_query (the_store collab)
              (feedModel.checkLikeStatus firebase_uid (trim feed_id)) (store w))
    as [[|]|e]; cbn in *; try discriminate.
  destruct (store_command (the_store collab)
              (feedModel.likeFeed firebase_uid (trim feed_id)) (store w))
    as [[r|e] s']; cbn; try discriminate.
  intros [= <-]. eauto.
Qed.

Lemma likeFeed_absent :
  store_query (the_store collab) (feedModel.getFeedById (trim feed_id)) (store w)
    = Resolved None ->
  run collab (feedService.likeFeed firebase_uid feed_id) w
  = mkRan (Rejected NotFound) (logged (error_line "liking feed" NotFound) w)
      [Store_query (feedModel.getFeedById (trim feed_id))].
Proof.
  intros Hfeed. enter feedService.likeFeed. by_running. reflexivity.
Qed.

Lemma unlikeFeed_from_liked feed r s' :
  store_query (the_store collab) (feedModel.getFeedById (trim feed_id)) (store w)
    = Resolved (Some feed) ->
  store_query (the_store collab) (feedModel.checkLikeStatus firebase_uid (trim feed_id))
    (store w) = Resolved true ->
  store_command (the_store collab) (feedModel.unlikeFeed firebase_uid (trim feed_id))
    (store w) = (Resolved r, s') ->
  run collab (feedService.unlikeFeed firebase_uid feed_id) w
  = mkRan (Resolved true)
      (mkWorld s'
         (snd (cache_del (the_cache collab) (likeCount_key (trim feed_id)) (cache w)))
         (console w))
      [Store_query (feedModel.getFeedById (trim feed_id));
       Store_query (feedModel.checkLikeStatus firebase_uid (trim feed_id));
       Store_command (feedModel.unlikeFeed firebase_uid (trim feed_id));
       Cache_call (redisHandle.del (likeCount_key (trim feed_id)))].
Proof.
  intros Hfeed Hstatus Hwrite. enter feedService.unlikeFeed. by_running. reflexivity.
Qed.

Lemma unlikeFeed_from_not_liked feed :
  store_query (the_store collab) (feedModel.getFeedById (trim feed_id)) (store w)
    = Resolved (Some feed) ->
  store_query (the_store collab) (feedModel.checkLikeStatus firebase_uid (trim feed_id))
    (store w) = Resolved false ->
  run collab (feedService.unlikeFeed firebase_uid feed_id) w
  = mkRan (Rejected NotLiked) (logged (error_line "unliking feed" NotLiked) w)
      [Store_query (feedModel.getFeedById (trim feed_id));
       Store_query (feedModel.checkLikeStatus firebase_uid (trim feed_id))].
Proof.
  intros Hfeed Hstatus. enter feedService.unlikeFeed. by_running. reflexivity.
Qed.

Lemma unlikeFeed_only_from_liked b :
  outcome (run collab (feedService.unlikeFeed firebase_uid feed_id) w) = Resolved b ->
  b = true /\
  (exists feed,
      store_query (the_store collab) (feedModel.getFeedById (trim feed_id)) (store w)
        = Resolved (Some feed)) /\
  store_query (the_store collab) (feedModel.checkLikeStatus firebase_uid (trim feed_id))
    (store w) = Resolved true.
Proof.
  enter feedService.unlikeFeed.
  destruct (store_query (the_store collab) (feedModel.getFeedById (trim feed_id))
              (store w)) as [[feed|]|e]; cbn in *; try discriminate.
  destruct (store_query (the_store collab)
              (feedModel.checkLikeStatus firebase_uid (trim feed_id)) (store w))
    as [[|]|e]; cbn in *; try discriminate.
  destruct (store_command (the_store collab)
              (feedModel.unlikeFeed firebase_uid (trim feed_id)) (store w))
    as [[r|e] s']; cbn; try discriminate.
  intros [= <-]. eauto.
Qed.

Lemma unlikeFeed_absent :
  store_query (the_store collab) (feedModel.getFeedById (trim feed_id)) (store w)
    = Resolved None ->
  run collab (feedService.unlikeFeed firebase_uid feed_id) w
  = mkRan (Rejected NotFound) (logged (error_line "unliking feed" NotFound) w)
      [Store_query (feedModel.getFeedById (trim feed_id))].
Proof.
  intros Hfeed. enter feedService.unlikeFeed. by_running. reflexivity.
Qed.
End Likes.

Section ReferenceLikes.
Context {C : Type}.
Variable cm : CacheModel C.
Variable w : World Store C.
Variables firebase_uid feed_id : string.
Variable feed : Feed.t.
Hypothesis feed_exists : feeds (store w) !! trim feed_id = Some feed.

Lemma reference_likeFeed :
  run (mkCollaborators reference_store cm) (feedService.likeFeed firebase_uid feed_id) w
  = if bool_decide ((firebase_uid, trim feed_id) ∈ likes (store w))
    then mkRan (Rejected AlreadyLiked) (logged (error_line "liking feed" AlreadyLiked) w)
           [Store_query (feedModel.getFeedById (trim feed_id));
            Store_query (feedModel.checkLikeStatus firebase_uid (trim feed_id))]
    else mkRan (Resolved true)
           (mkWorld
              (mkStore (feeds (store w)) (images (store w))
                 ({[ (firebase_uid, trim feed_id) ]} ∪ likes (store w))
                 (comments (store w)) (next_id (store w)))
              (snd (cache_del cm (likeCount_key (trim feed_id)) (cache w)))
              (console w))
           [Store_query (feedModel.getFeedById (trim feed_id));
            Store_query (feedModel.checkLikeStatus firebase_uid (trim feed_id));
            Store_command (feedModel.likeFeed firebase_uid (trim feed_id));
            Cache_call (redisHandle.del (likeCount_key (trim feed_id)))].
Proof.
  enter feedService.likeFeed. rewrite feed_exists. cbn.
  destruct (bool_decide _); reflexivity.
Qed.

Lemma reference_unlikeFeed :
  run (mkCollaborators reference_store cm) (feedService.unlikeFeed firebase_uid feed_id) w
  = if bool_decide ((firebase_uid, trim feed_id) ∈ likes (store w))
    then mkRan (Resolved true)
           (mkWorld
              (mkStore (feeds (store w)) (images (store w))
                 (likes (store w) ∖ {[ (firebase_uid, trim feed_id) ]})
                 (comments (store w)) (next_id (store w)))
              (snd (cache_del cm (likeCount_key (trim feed_id)) (cache w)))
              (console w))
           [Store_query (feedModel.getFeedById (trim feed_id));
            Store_query (feedModel.checkLikeStatus firebase_uid (trim feed_id));
            Store_command (feedModel.unlikeFeed firebase_uid (trim feed_id));
            Cache_call (redisHandle.del (likeCount_key (trim feed_id)))]
    else mkRan (Rejected NotLiked) (logged (error_line "unliking feed" NotLiked) w)
           [Store_query (feedModel.getFeedById (trim feed_id));
            Store_query (feedModel.checkLikeStatus firebase_uid (trim feed_id))].
Proof.
  enter feedService.unlikeFeed. rewrite feed_exists. cbn.
  destruct (bool_decide _); reflexivity.
Qed.
End ReferenceLikes.

Section ReferenceTwice.
Context {C : Type}.
Variable cm : CacheModel C.
Variable w : World Store C.
Variables firebase_uid feed_id : string.
Variable feed : Feed.t.
Hypothesis feed_exists : feeds (store w) !! trim feed_id = Some feed.

Lemma reference_likeFeed_iff :
  outcome (run (mkCollaborators reference_store cm)
             (feedService.likeFeed firebase_uid feed_id) w) = Resolved true
  <-> (firebase_uid, trim feed_id) ∉ likes (store w).
Proof.
  rewrite (reference_likeFeed cm w firebase_uid feed_id feed feed_exists).
  destruct (bool_decide_reflect ((firebase_uid, trim feed_id) ∈ likes (store w))); cbn.
  - split; [discriminate | contradiction].
  - split; auto.
Qed.

Lemma reference_unlikeFeed_iff :
  outcome (run (mkCollaborators reference_store cm)
             (feedService.unlikeFeed firebase_uid feed_id) w) = Resolved true
  <-> (firebase_uid, trim feed_id) ∈ likes (store w).
Proof.
  rewrite (reference_unlikeFeed cm w firebase_uid feed_id feed feed_exists).
  destruct (bool_decide_reflect ((firebase_uid, trim feed_id) ∈ likes (store w))); cbn.
  - split; auto.
  - split; [discriminate | contradiction].
Qed.

Lemma reference_likeFeed_twice :
  outcome (run (mkCollaborators reference_store cm)
             (feedService.likeFeed firebase_uid feed_id)
             (after (run (mkCollaborators reference_store cm)
                       (feedService.likeFeed firebase_uid feed_id) w)))
  = Rejected AlreadyLiked.
Proof.
  rewrite (reference_likeFeed cm w firebase_uid feed_id feed feed_exists).
  destruct (bool_decide_reflect ((firebase_uid, trim feed_id) ∈ likes (store w)))
    as [Hin|Hout]; cbn [after].
  - rewrite (reference_likeFeed cm _ firebase_uid feed_id feed) by exact feed_exists.
    cbn. now rewrite bool_decide_eq_true_2.
  - rewrite (reference_likeFeed cm _ firebase_uid feed_id feed) by exact feed_exists.
    cbn. rewrite bool_decide_eq_true_2; [reflexivity | set_solver].
Qed.

Lemma reference_unlikeFeed_twice :
  outcome (run (mkCollaborators reference_store cm)
             (feedService.unlikeFeed firebase_uid feed_id)
             (after (run (mkCollaborators reference_store cm)
                       (feedService.unlikeFeed firebase_uid feed_id) w)))
  = Rejected NotLiked.
Proof.
  rewrite (reference_unlikeFeed cm w firebase_uid feed_id feed feed_exists).
  destruct (bool_decide_reflect ((firebase_uid, trim feed_id) ∈ likes (store w)))
    as [Hin|Hout]; cbn [after].
  - rewrite (reference_unlikeFeed cm _ firebase_uid feed_id feed) by exact feed_exists.
    cbn. rewrite bool_decide_eq_false_2; [reflexivity|].
    intros [_ Hthere]%elem_of_difference. apply Hthere. now apply elem_of_singleton.
  - rewrite (reference_unlikeFeed cm _ firebase_uid feed_id feed) by exact feed_exists.
    cbn. now rewrite bool_decide_eq_false_2.
Qed.
End ReferenceTwice.

(** C7.  With the feed in the Store (under the trimmed id):
    - from NOT_LIKED, [likeFeed] sends the like to the Store and, the Store
      having taken it, resolves with [true]; from LIKED it is rejected with
      "Already liked this feed" and writes nothing;
    - from LIKED, [unlikeFeed] sends the unlike and resolves with [true];
      from NOT_LIKED it is rejected with "Not liked this feed before, cannot
      unlike" and writes nothing;
    - either one resolves only from the state it is valid in.
    Without the feed, both are rejected with "Feed not found".
    A second [likeFeed] is rejected with "Already liked this feed" as soon
    as the Store, after the first, still has the feed and reports the pair
    LIKED; likewise for [unlikeFeed], NOT_LIKED and "Not liked this feed
    before, cannot unlike".
    In the reference Store (which keeps what it is sent and never rejects)
    [likeFeed] resolves exactly from NOT_LIKED and [unlikeFeed] exactly from
    LIKED; of two [likeFeed] in a row from NOT_LIKED the first resolves and
    the second is rejected with "Already liked this feed"; of two
    [unlikeFeed] in a row from LIKED the first resolves, and the second is
    rejected with "Not liked this feed before, cannot unlike" whatever the
    state was. *)
Theorem like_state_machine :
  (forall (S C : Type) (collab : Collaborators S C) (w : World S C)
          (firebase_uid feed_id : string),
      has_feed (the_store collab) (trim feed_id) (store w) ->
      (like_state (the_store collab) firebase_uid (trim feed_id) (store w) false ->
       forall r s',
         store_command (the_store collab) (feedModel.likeFeed firebase_uid (trim feed_id))
           (store w) = (Resolved r, s') ->
         run collab (feedService.likeFeed firebase_uid feed_id) w
         = mkRan (Resolved true)
             (mkWorld s'
                (snd (cache_del (the_cache collab) (likeCount_key (trim feed_id)) (cache w)))
                (console w))
             [Store_query (feedModel.getFeedById (trim feed_id));
              Store_query (feedModel.checkLikeStatus firebase_uid (trim feed_id));
              Store_command (feedModel.likeFeed firebase_uid (trim feed_id));
              Cache_call (redisHandle.del (likeCount_key (trim feed_id)))]) /\
      (like_state (the_store collab) firebase_uid (trim feed_id) (store w) true ->
       run collab (feedService.likeFeed firebase_uid feed_id) w
       = mkRan (Rejected AlreadyLiked) (logged (error_line "liking feed" AlreadyLiked) w)
           [Store_query (feedModel.getFeedById (trim feed_id));
            Store_query (feedModel.checkLikeStatus firebase_uid (trim feed_id))]) /\
      (like_state (the_store collab) firebase_uid (trim feed_id) (store w) true ->
       forall r s',
         store_command (the_store collab) (feedModel.unlikeFeed firebase_uid (trim feed_id))
           (store w) = (Resolved r, s') ->
         run collab (feedService.unlikeFeed firebase_uid feed_id) w
         = mkRan (Resolved true)
             (mkWorld s'
                (snd (cache_del (the_cache collab) (likeCount_key (trim feed_id)) (cache w)))
                (console w))
             [Store_query (feedModel.getFeedById (trim feed_id));
              Store_query (feedModel.checkLikeStatus firebase_uid (trim feed_id));
              Store_command (feedModel.unlikeFeed firebase_uid (trim feed_id));
              Cache_call (redisHandle.del (likeCount_key (trim feed_id)))]) /\
      (like_state (the_store collab) firebase_uid (trim feed_id) (store w) false ->
       run collab (feedService.unlikeFeed firebase_uid feed_id) w
       = mkRan (Rejected NotLiked) (logged (error_line "unliking feed" NotLiked) w)
           [Store_query (feedModel.getFeedById (trim feed_id));
            Store_query (feedModel.checkLikeStatus firebase_uid (trim feed_id))])) /\
  (forall (S C : Type) (collab : Collaborators S C) (w : World S C)
          (firebase_uid feed_id : string) (b : bool),
      (outcome (run collab (feedService.likeFeed firebase_uid feed_id) w) = Resolved b ->
       b = true /\ has_feed (the_store collab) (trim feed_id) (store w) /\
       like_state (the_store collab) firebase_uid (trim feed_id) (store w) false) /\
      (outcome (run collab (feedService.unlikeFeed firebase_uid feed_id) w) = Resolved b ->
       b = true /\ has_feed (the_store collab) (trim feed_id) (store w) /\
       like_state (the_store collab) firebase_uid (trim feed_id) (store w) true)) /\
  (forall (S C : Type) (collab : Collaborators S C) (w : World S C)
          (firebase_uid feed_id : string),
      store_query (the_store collab) (feedModel.getFeedById (trim feed_id)) (store w)
        = Resolved None ->
      run collab (feedService.likeFeed firebase_uid feed_id) w
      = mkRan (Rejected NotFound) (logged (error_line "liking feed" NotFound) w)
          [Store_query (feedModel.getFeedById (trim feed_id))] /\
      run collab (feedService.unlikeFeed firebase_uid feed_id) w
      = mkRan (Rejected NotFound) (logged (error_line "unliking feed" NotFound) w)
          [Store_query (feedModel.getFeedById (trim feed_id))]) /\
  (forall (S C : Type) (collab : Collaborators S C) (w : World S C)
          (firebase_uid feed_id : string),
      let liked := run collab (feedService.likeFeed firebase_uid feed_id) w in
      let unliked := run collab (feedService.unlikeFeed firebase_uid feed_id) w in
      (has_feed (the_store collab) (trim feed_id) (store (after liked)) ->
       like_state (the_store collab) firebase_uid (trim feed_id) (store (after liked)) true ->
       outcome (run collab (feedService.likeFeed firebase_uid feed_id) (after liked))
       = Rejected AlreadyLiked) /\
      (has_feed (the_store collab) (trim feed_id) (store (after unliked)) ->
       like_state (the_store collab) firebase_uid (trim feed_id) (store (after unliked))
         false ->
       outcome (run collab (feedService.unlikeFeed firebase_uid feed_id) (after unliked))
       = Rejected NotLiked)) /\
  (forall (C : Type) (cm : CacheModel C) (w : World Store C)
          (firebase_uid feed_id : string),
      has_feed reference_store (trim feed_id) (store w) ->
      let service := @run _ _ (mkCollaborators reference_store cm) bool in
      let like := feedService.likeFeed firebase_uid feed_id in
      let unlike := feedService.unlikeFeed firebase_uid feed_id in
      (outcome (service like w) = Resolved true
       <-> like_state reference_store firebase_uid (trim feed_id) (store w) false) /\
      (outcome (service unlike w) = Resolved true
       <-> like_state reference_store firebase_uid (trim feed_id) (store w) true) /\
      (like_state reference_store firebase_uid (trim feed_id) (store w) false ->
       outcome (service like w) = Resolved true /\
       outcome (service like (after (service like w))) = Rejected AlreadyLiked) /\
      (like_state reference_store firebase_uid (trim feed_id) (store w) true ->
       outcome (service unlike w) = Resolved true /\
       outcome (service unlike (after (service unlike w))) = Rejected NotLiked) /\
      outcome (service unlike (after (service unlike w))) = Rejected NotLiked).
Proof.
  split; [|split; [|split; [|split]]].
  - intros S C collab w u f [feed Hfeed]. unfold like_state. repeat split.
    + intros. now apply likeFeed_from_not_liked with (feed := feed) (r := r).
    + intros. now apply likeFeed_from_liked with (feed := feed).
    + intros. now apply unlikeFeed_from_liked with (feed := feed) (r := r).
    + intros. now apply unlikeFeed_from_not_liked with (feed := feed).
  - intros S C collab w u f b. unfold has_feed, like_state. split.
    + apply likeFeed_only_from_not_liked.
    + apply unlikeFeed_only_from_liked.
  - intros S C collab w u f Hfeed. split.
    + now apply likeFeed_absent.
    + now apply unlikeFeed_absent.
  - intros S C collab w u f. cbn zeta. unfold like_state. split.
    + intros [feed Hfeed] Hstate.
      now rewrite (likeFeed_from_liked collab _ u f feed Hfeed Hstate).
    + intros [feed Hfeed] Hstate.
      now rewrite (unlikeFeed_from_not_liked collab _ u f feed Hfeed Hstate).
  - intros C cm w u f [feed Hfeed]. cbn in Hfeed.
    assert (Hexists : feeds (store w) !! trim f = Some feed) by congruence.
    assert (Hstate : forall b, like_state reference_store u (trim f) (store w) b
                               <-> bool_decide ((u, trim f) ∈ likes (store w)) = b).
    { intros b. unfold like_state. cbn. split; congruence. }
    cbn zeta. split; [|split; [|split; [|split]]].
    + rewrite (reference_likeFeed_iff cm w u f feed Hexists), Hstate.
      now rewrite bool_decide_eq_false.
    + rewrite (reference_unlikeFeed_iff cm w u f feed Hexists), Hstate.
      now rewrite bool_decide_eq_true.
    + intros Hfalse%Hstate%bool_decide_eq_false. split.
      * now apply (reference_likeFeed_iff cm w u f feed Hexists).
      * apply (reference_likeFeed_twice cm w u f feed Hexists).
    + intros Htrue%Hstate%bool_decide_eq_true. split.
      * now apply (reference_unlikeFeed_iff cm w u f feed Hexists).
      * apply (reference_unlikeFeed_twice cm w u f feed Hexists).
    + apply (reference_unlikeFeed_twice cm w u f feed Hexists).
Qed.

Lemma like_state_machine_witness :
  (outcome (run reference (feedService.likeFeed "carol" " f1 ") demo_world) = Resolved true
   /\ outcome (run reference (feedService.likeFeed "carol" " f1 ")
                 (after (run reference (feedService.likeFeed "carol" " f1 ") demo_world)))
      = Rejected AlreadyLiked)
  /\ (outcome (run reference (feedService.unlikeFeed "bob" "f1") demo_world) = Resolved true
      /\ outcome (run reference (feedService.unlikeFeed "bob" "f1")
                    (after (run reference (feedService.unlikeFeed "bob" "f1") demo_world)))
         = Rejected NotLiked)
  /\ outcome (run reference (feedService.likeFeed "bob" "f1") demo_world)
     = Rejected AlreadyLiked
  /\ outcome (run reference (feedService.unlikeFeed "carol" "f1") demo_world)
     = Rejected NotLiked
  /\ outcome (run reference (feedService.likeFeed "bob" "f9") demo_world) = Rejected NotFound
  /\ outcome (run reference (feedService.unlikeFeed "bob" "f9") demo_world)
     = Rejected NotFound.
Proof.
  destruct like_state_machine as (Hmoves & Honly & Habsent & _ & Hreference).
  assert (Hfeed : has_feed reference_store "f1" demo_store)
    by (exists alice_feed; reflexivity).
  split; [|split; [|split; [|split; [|split]]]].
  - destruct (Hreference _ reference_cache demo_world "carol" " f1 " Hfeed)
      as (_ & _ & Htwice & _).
    apply Htwice. vm_compute. reflexivity.
  - destruct (Hreference _ reference_cache demo_world "bob" "f1" Hfeed)
      as (_ & _ & _ & Htwice & _).
    apply Htwice. vm_compute. reflexivity.
  - destruct (Hmoves _ _ reference demo_world "bob" "f1" Hfeed) as (_ & Hliked & _).
    rewrite Hliked; [reflexivity|]. vm_compute. reflexivity.
  - destruct (Hmoves _ _ reference demo_world "carol" "f1" Hfeed) as (_ & _ & _ & Hnot).
    rewrite Hnot; [reflexivity|]. vm_compute. reflexivity.
  - destruct (Habsent _ _ reference demo_world "bob" "f9") as [Hlike _]; [reflexivity|].
    rewrite Hlike. reflexivity.
  - destruct (Habsent _ _ reference demo_world "bob" "f9") as [_ Hunlike]; [reflexivity|].
    rewrite Hunlike. reflexivity.
Defined.

(** ** What like and unlike do to the Cache *)

Section LikeFrame.
Context {S C : Type}.
Variable collab : Collaborators S C.
Variable w : World S C.
Variables firebase_uid feed_id : string.

Lemma likeFeed_resolved b :
  outcome (run collab (feedService.likeFeed firebase_uid feed_id) w) = Resolved b ->
  calls (run collab (feedService.likeFeed firebase_uid feed_id) w)
  = [Store_query (feedModel.getFeedById (trim feed_id));
     Store_query (feedModel.checkLikeStatus firebase_uid (trim feed_id));
     Store_command (feedModel.likeFeed firebase_uid (trim feed_id));
     Cache_call (redisHandle.del (likeCount_key (trim feed_id)))] /\
  cache (after (run collab (feedService.likeFeed firebase_uid feed_id) w))
  = snd (cache_del (the_cache collab) (likeCount_key (trim feed_id)) (cache w)).
Proof.
  enter feedService.likeFeed.
  destruct (store_query (the_store collab) (feedModel.getFeedById (trim feed_id))
              (store w)) as [[feed|]|e]; cbn in *; try discriminate.
  destruct (store_query (the_store collab)
              (feedModel.checkLikeStatus firebase_uid (trim feed_id)) (store w))
    as [[|]|e]; cbn in *; try discriminate.
  destruct (store_command (the_store collab)
              (feedModel.likeFeed firebase_uid (trim feed_id)) (store w))
    as [[r|e] s']; cbn; try discriminate.
  auto.
Qed.

Lemma unlikeFeed_resolved b :
  outcome (run collab (feedService.unlikeFeed firebase_uid feed_id) w) = Resolved b ->
  calls (run collab (feedService.unlikeFeed firebase_uid feed_id) w)
  = [Store_query (feedModel.getFeedById (trim feed_id));
     Store_query (feedModel.checkLikeStatus firebase_uid (trim feed_id));
     Store_command (feedModel.unlikeFeed firebase_uid (trim feed_id));
     Cache_call (redisHandle.del (likeCount_key (trim feed_id)))] /\
  cache (after (run collab (feedService.unlikeFeed firebase_uid feed_id) w))
  = snd (cache_del (the_cache collab) (likeCount_key (trim feed_id)) (cache w)).
Proof.
  enter feedService.unlikeFeed.
  destruct (store_query (the_store collab) (feedModel.getFeedById (trim feed_id))
              (store w)) as [[feed|]|e]; cbn in *; try discriminate.
  destruct (store_query (the_store collab)
              (feedModel.checkLikeStatus firebase_uid (trim feed_id)) (store w))
    as [[|]|e]; cbn in *; try discriminate.
  destruct (store_command (the_store collab)
              (feedModel.unlikeFeed firebase_uid (trim feed_id)) (store w))
    as [[r|e] s']; cbn; try discriminate.
  auto.
Qed.

(** Whatever comes of it, [likeFeed] either leaves the Cache alone or has
    sent it that one [del]. *)
Lemma likeFeed_cache :
  cache (after (run collab (feedService.likeFeed firebase_uid feed_id) w)) = cache w \/
  cache (after (run collab (feedService.likeFeed firebase_uid feed_id) w))
  = snd (cache_del (the_cache collab) (likeCount_key (trim feed_id)) (cache w)).
Proof.
  enter feedService.likeFeed.
  destruct (store_query (the_store collab) (feedModel.getFeedById (trim feed_id))
              (store w)) as [[feed|]|e]; cbn in *; auto.
  destruct (store_query (the_store collab)
              (feedModel.checkLikeStatus firebase_uid (trim feed_id)) (store w))
    as [[|]|e]; cbn in *; auto.
  destruct (store_command (the_store collab)
              (feedModel.likeFeed firebase_uid (trim feed_id)) (store w))
    as [[r|e] s']; cbn; auto.
Qed.

Lemma unlikeFeed_cache :
  cache (after (run collab (feedService.unlikeFeed firebase_uid feed_id) w)) = cache w \/
  cache (after (run collab (feedService.unlikeFeed firebase_uid feed_id) w))
  = snd (cache_del (the_cache collab) (likeCount_key (trim feed_id)) (cache w)).
Proof.
  enter feedService.unlikeFeed.
  destruct (store_query (the_store collab) (feedModel.getFeedById (trim feed_id))
              (store w)) as [[feed|]|e]; cbn in *; auto.
  destruct (store_query (the_store collab)
              (feedModel.checkLikeStatus firebase_uid (trim feed_id)) (store w))
    as [[|]|e]; cbn in *; auto.
  destruct (store_command (the_store collab)
              (feedModel.unlikeFeed firebase_uid (trim feed_id)) (store w))
    as [[r|e] s']; cbn; auto.
Qed.
End LikeFrame.

Lemma like_count_apart_intro {S A : Type} (r : Ran S (gmap string (Z * string)) A)
    (w : World S (gmap string (Z * string))) (id : string) :
  cache (after r) = cache w \/ cache (after r) = delete (likeCount_key id) (cache w) ->
  like_count_apart r w id.
Proof.
  intros Hcache.
  assert (Hframe : forall key, key <> likeCount_key id ->
                               cache (after r) !! key = cache w !! key).
  { intros key Hkey. destruct Hcache as [-> | ->]; [reflexivity|].
    now apply lookup_delete_ne. }
  split; [exact Hframe|]. split.
  - apply Hframe. intros Heq. symmetry in Heq.
    now apply likeCount_key_not_commentCount_key in Heq.
  - intros other Hother. split; apply Hframe.
    + intros Heq. now apply likeCount_key_inj in Heq.
    + intros Heq. symmetry in Heq. now apply likeCount_key_not_commentCount_key in Heq.
Qed.

(** C9.  A [likeFeed] or [unlikeFeed] that resolves has made exactly one
    call to the Cache, [del] of [feed:<id>:likeCount] (with the trimmed id),
    and the Cache is what that [del] leaves.  In the reference Cache this
    removes that entry and nothing else: the comment count of the feed and
    both counters of every other feed are as before (also when the
    operation is rejected, which then leaves the Cache alone). *)
Theorem like_touches_like_count_only :
  (forall (S C : Type) (collab : Collaborators S C) (w : World S C)
          (firebase_uid feed_id : string) (b : bool),
      (outcome (run collab (feedService.likeFeed firebase_uid feed_id) w) = Resolved b ->
       calls (run collab (feedService.likeFeed firebase_uid feed_id) w)
       = [Store_query (feedModel.getFeedById (trim feed_id));
          Store_query (feedModel.checkLikeStatus firebase_uid (trim feed_id));
          Store_command (feedModel.likeFeed firebase_uid (trim feed_id));
          Cache_call (redisHandle.del (likeCount_key (trim feed_id)))] /\
       cache (after (run collab (feedService.likeFeed firebase_uid feed_id) w))
       = snd (cache_del (the_cache collab) (likeCount_key (trim feed_id)) (cache w))) /\
      (outcome (run collab (feedService.unlikeFeed firebase_uid feed_id) w) = Resolved b ->
       calls (run collab (feedService.unlikeFeed firebase_uid feed_id) w)
       = [Store_query (feedModel.getFeedById (trim feed_id));
          Store_query (feedModel.checkLikeStatus firebase_uid (trim feed_id));
          Store_command (feedModel.unlikeFeed firebase_uid (trim feed_id));
          Cache_call (redisHandle.del (likeCount_key (trim feed_id)))] /\
       cache (after (run collab (feedService.unlikeFeed firebase_uid feed_id) w))
       = snd (cache_del (the_cache collab) (likeCount_key (trim feed_id)) (cache w)))) /\
  (forall (S : Type) (st : StoreModel S) (w : World S (gmap string (Z * string)))
          (firebase_uid feed_id : string),
      let liked := run (mkCollaborators st reference_cache)
                     (feedService.likeFeed firebase_uid feed_id) w in
      let unliked := run (mkCollaborators st reference_cache)
                       (feedService.unlikeFeed firebase_uid feed_id) w in
      (forall b, outcome liked = Resolved b ->
                 cache (after liked) = delete (likeCount_key (trim feed_id)) (cache w)) /\
      (forall b, outcome unliked = Resolved b ->
                 cache (after unliked) = delete (likeCount_key (trim feed_id)) (cache w)) /\
      like_count_apart liked w (trim feed_id) /\
      like_count_apart unliked w (trim feed_id)).
Proof.
  split.
  - intros S C collab w u f b. split.
    + apply likeFeed_resolved.
    + apply unlikeFeed_resolved.
  - intros S st w u f. cbn zeta. split; [|split; [|split]].
    + intros b Hb. now apply likeFeed_resolved in Hb as [_ ->].
    + intros b Hb. now apply unlikeFeed_resolved in Hb as [_ ->].
    + apply like_count_apart_intro.
      apply (likeFeed_cache (mkCollaborators st reference_cache)).
    + apply like_count_apart_intro.
      apply (unlikeFeed_cache (mkCollaborators st reference_cache)).
Qed.

Lemma like_touches_like_count_only_witness :
  let liked := run reference (feedService.likeFeed "carol" " f1 ") warm_world in
  outcome liked = Resolved true
  /\ cache warm_world !! "feed:f1:likeCount" = Some (600, "41")
  /\ cache (after liked) !! "feed:f1:likeCount" = None
  /\ cache (after liked) !! "feed:f1:commentCount" = Some (600, "43")
  /\ cache (after liked) !! "feed:f2:likeCount" = Some (600, "5")
  /\ cache (after liked) !! "feed:f2:commentCount" = Some (600, "0")
  /\ calls liked
     = [Store_query (feedModel.getFeedById "f1");
        Store_query (feedModel.checkLikeStatus "carol" "f1");
        Store_command (feedModel.likeFeed "carol" "f1");
        Cache_call (redisHandle.del "feed:f1:likeCount")].
Proof.
  cbn zeta.
  assert (Hliked : outcome (run reference (feedService.likeFeed "carol" " f1 ") warm_world)
                   = Resolved true) by (vm_compute; reflexivity).
  destruct like_touches_like_count_only as [Hcalls Hframe].
  unfold reference in *.
  destruct (Hframe _ reference_store warm_world "carol" " f1 ")
    as (Hdel & _ & (_ & Hcomment & Hother) & _).
  destruct (Hother "f2" ltac:(discriminate)) as [Hlike2 Hcomment2].
  split; [exact Hliked|]. split; [reflexivity|]. split; [|split; [|split; [|split]]].
  - rewrite (Hdel true Hliked). apply lookup_delete_eq.
  - etransitivity; [exact Hcomment | reflexivity].
  - etransitivity; [exact Hlike2 | reflexivity].
  - etransitivity; [exact Hcomment2 | reflexivity].
  - apply (proj1 (Hcalls _ _ _ warm_world "carol" " f1 " true)). exact Hliked.
Defined.

(** ** Which feed id reaches the collaborators *)

(** Split on what the collaborators answer, call after call. *)
Ltac case_answers :=
  repeat (cbn in *;
          match goal with
          | |- context [store_query ?st ?q ?s] => destruct (store_query st q s)
          | |- context [store_command ?st ?m ?s] => destruct (store_command st m s)
          | |- context [cache_get ?cm ?k ?c] => destruct (cache_get cm k c)
          | |- context [match ?x with _ => _ end] => is_var x; destruct x
          | |- context [negb ?x] => is_var x; destruct x
          | |- context [(?a =? ?b)%string] => destruct (a =? b)%string
          | |- context [?a <=? ?b] => destruct (a <=? b)
          end);
  cbn in *.

Ltac all_pass :=
  repeat match goal with
         | |- Forall _ [] => constructor
         | |- Forall _ (_ :: _) => constructor; [cbn; auto|]
         end.

Section FeedIds.
Context {S C : Type}.
Variable collab : Collaborators S C.
Variable w : World S C.

Lemma calls_pass_feed_id (op : Operation) (feed_id : string) :
  given_feed_id op = Some feed_id ->
  Forall (passes (if is_image_operation op then feed_id else trim feed_id))
    (calls (run collab (exported op) w)).
Proof.
  intros Hgiven. rewrite exported_is_guarded_attempt, run_try_handleError.
  destruct op; cbn in Hgiven; try discriminate; injection Hgiven as ->.
  all: cbn [is_image_operation attempt].
  all: unfold feedService.body.getFeedById, feedService.body.updateFeed,
         feedService.body.deleteFeed, feedService.body.updateFeedImage,
         feedService.body.deleteFeedImage, feedService.body.likeFeed,
         feedService.body.unlikeFeed, feedService.body.checkLikeStatus,
         feedService.body.getLikeCount, feedService.body.getCommentCount.
  all: case_answers.
  all: all_pass.
Qed.
End FeedIds.

Lemma first_call_passes_feed_id (op : Operation) (feed_id : string) :
  given_feed_id op = Some feed_id ->
  exists c, first_call (exported op) = Some c /\
            passes (if is_image_operation op then feed_id else trim feed_id) c.
Proof.
  intros Hgiven.
  destruct op; cbn in Hgiven; try discriminate; injection Hgiven as ->.
  all: eexists; split; [reflexivity|]; cbn; auto.
Qed.

(** The eight functions that trim are the same program on a feed id and on
    its trimmed form. *)
Lemma trimmed_first (firebase_uid feed_id description : string) :
  feedService.getFeedById feed_id = feedService.getFeedById (trim feed_id) /\
  feedService.updateFeed feed_id firebase_uid description
  = feedService.updateFeed (trim feed_id) firebase_uid description /\
  feedService.deleteFeed feed_id firebase_uid
  = feedService.deleteFeed (trim feed_id) firebase_uid /\
  feedService.likeFeed firebase_uid feed_id
  = feedService.likeFeed firebase_uid (trim feed_id) /\
  feedService.unlikeFeed firebase_uid feed_id
  = feedService.unlikeFeed firebase_uid (trim feed_id) /\
  feedService.checkLikeStatus firebase_uid feed_id
  = feedService.checkLikeStatus firebase_uid (trim feed_id) /\
  feedService.getLikeCount feed_id = feedService.getLikeCount (trim feed_id) /\
  feedService.getCommentCount feed_id = feedService.getCommentCount (trim feed_id).
Proof.
  unfold feedService.getFeedById, feedService.updateFeed, feedService.deleteFeed,
    feedService.likeFeed, feedService.unlikeFeed, feedService.checkLikeStatus,
    feedService.getLikeCount, feedService.getCommentCount.
  unfold feedService.body.getFeedById, feedService.body.updateFeed,
    feedService.body.deleteFeed, feedService.body.likeFeed, feedService.body.unlikeFeed,
    feedService.body.checkLikeStatus, feedService.body.getLikeCount,
    feedService.body.getCommentCount.
  rewrite !trim_idempotent. repeat split; reflexivity.
Qed.

(** C10.  Every call that an exported function makes to the Store or the
    Cache is about one feed id: the id exactly as given for
    [updateFeedImage] and [deleteFeedImage], the trimmed id for
    [getFeedById], [updateFeed], [deleteFeed], [likeFeed], [unlikeFeed],
    [checkLikeStatus], [getLikeCount] and [getCommentCount]; each of them
    starts with such a call, and those eight are the same program on an id
    and on its trimmed form.  So for the id [" f1 "] of Alice's feed
    [f1] in the reference Store, Alice's [updateFeed] resolves while her
    [updateFeedImage] and [deleteFeedImage] are rejected with "Feed not
    found". *)
Theorem image_operations_take_feed_id_untrimmed :
  (forall (S C : Type) (collab : Collaborators S C) (w : World S C)
          (op : Operation) (feed_id : string),
      given_feed_id op = Some feed_id ->
      Forall (passes (if is_image_operation op then feed_id else trim feed_id))
        (calls (run collab (exported op) w)) /\
      exists c, first_call (exported op) = Some c /\
                passes (if is_image_operation op then feed_id else trim feed_id) c) /\
  (forall firebase_uid feed_id image_id newImageUrl : string,
      first_call (feedService.updateFeedImage firebase_uid feed_id image_id newImageUrl)
      = Some (Store_query (feedModel.getFeedById feed_id)) /\
      first_call (feedService.deleteFeedImage firebase_uid feed_id image_id)
      = Some (Store_query (feedModel.getFeedById feed_id))) /\
  (forall firebase_uid feed_id description : string,
      feedService.getFeedById feed_id = feedService.getFeedById (trim feed_id) /\
      feedService.updateFeed feed_id firebase_uid description
      = feedService.updateFeed (trim feed_id) firebase_uid description /\
      feedService.deleteFeed feed_id firebase_uid
      = feedService.deleteFeed (trim feed_id) firebase_uid /\
      feedService.likeFeed firebase_uid feed_id
      = feedService.likeFeed firebase_uid (trim feed_id) /\
      feedService.unlikeFeed firebase_uid feed_id
      = feedService.unlikeFeed firebase_uid (trim feed_id) /\
      feedService.checkLikeStatus firebase_uid feed_id
      = feedService.checkLikeStatus firebase_uid (trim feed_id) /\
      feedService.getLikeCount feed_id = feedService.getLikeCount (trim feed_id) /\
      feedService.getCommentCount feed_id = feedService.getCommentCount (trim feed_id)) /\
  (exists feed_id : string,
      trim feed_id <> feed_id /\
      has_feed reference_store (trim feed_id) (store demo_world) /\
      (exists updated,
          outcome (run reference (feedService.updateFeed feed_id "alice" "x") demo_world)
          = Resolved updated) /\
      outcome (run reference (feedService.updateFeedImage "alice" feed_id "i1" "z.jpg")
                 demo_world) = Rejected NotFound /\
      outcome (run reference (feedService.deleteFeedImage "alice" feed_id "i1") demo_world)
      = Rejected NotFound).
Proof.
  split; [|split; [|split]].
  - intros S C collab w op feed_id Hgiven. split.
    + now apply calls_pass_feed_id.
    + now apply first_call_passes_feed_id.
  - intros. split; reflexivity.
  - apply trimmed_first.
  - exists " f1 ". split; [discriminate|]. split; [exists alice_feed; reflexivity|].
    split; [eexists; vm_compute; reflexivity|]. split; reflexivity.
Qed.

Lemma image_operations_take_feed_id_untrimmed_witness :
  Forall (passes " f1 ")
    (calls (run reference (feedService.updateFeedImage "alice" " f1 " "i1" "z.jpg")
              demo_world))
  /\ calls (run reference (feedService.updateFeedImage "alice" " f1 " "i1" "z.jpg")
              demo_world)
     = [Store_query (feedModel.getFeedById " f1 ")]
  /\ Forall (passes "f1")
       (calls (run reference (feedService.updateFeed " f1 " "alice" "x") demo_world))
  /\ calls (run reference (feedService.updateFeed " f1 " "alice" "x") demo_world)
     = [Store_query (feedModel.getFeedById "f1");
        Cache_call (redisHandle.del "feed:f1:likeCount");
        Cache_call (redisHandle.del "feed:f1:commentCount");
        Store_command (feedModel.updateFeed "f1" "x")].
Proof.
  destruct image_operations_take_feed_id_untrimmed as (Hpass & _ & _ & _).
  split; [|split; [|split]].
  - apply (Hpass _ _ reference demo_world (op_updateFeedImage "alice" " f1 " "i1" "z.jpg")
             " f1 " eq_refl).
  - reflexivity.
  - apply (Hpass _ _ reference demo_world (op_updateFeed " f1 " "alice" "x")
             " f1 " eq_refl).
  - vm_compute. reflexivity.
Defined.

(** ** Invalidation *)

Section Invalidation.
Context {S C : Type}.
Variable collab : Collaborators S C.
Variable w : World S C.

Lemma createFeed_resolved firebase_uid description imageUrls feedId :
  outcome (run collab (feedService.createFeed firebase_uid description imageUrls) w)
  = Resolved feedId ->
  calls (run collab (feedService.createFeed firebase_uid description imageUrls) w)
  = (Store_command (feedModel.createFeed firebase_uid description)
       :: images_call feedId imageUrls
       ++ [Cache_call (redisHandle.del (likeCount_key feedId));
           Cache_call (redisHandle.del (commentCount_key feedId))])%list /\
  cache (after (run collab (feedService.createFeed firebase_uid description imageUrls) w))
  = snd (cache_del (the_cache collab) (commentCount_key feedId)
           (snd (cache_del (the_cache collab) (likeCount_key feedId) (cache w)))).
Proof.
  enter feedService.createFeed.
  destruct (store_command (the_store collab)
              (feedModel.createFeed firebase_uid description) (store w))
    as [[id|e] s1]; cbn; try discriminate.
  destruct imageUrls as [[|url urls]|]; cbn.
  - intros [= <-]. auto.
  - destruct (store_command (the_store collab)
                (feedModel.addFeedImages id (url :: urls)) s1)
      as [[r|e] s2]; cbn; try discriminate.
    intros [= <-]. auto.
  - intros [= <-]. auto.
Qed.

Lemma updateFeed_resolved feed_id firebase_uid description r :
  outcome (run collab (feedService.updateFeed feed_id firebase_uid description) w)
  = Resolved r ->
  calls (run collab (feedService.updateFeed feed_id firebase_uid description) w)
  = [Store_query (feedModel.getFeedById (trim feed_id));
     Cache_call (redisHandle.del (likeCount_key (trim feed_id)));
     Cache_call (redisHandle.del (commentCount_key (trim feed_id)));
     Store_command (feedModel.updateFeed (trim feed_id) description)] /\
  cache (after (run collab (feedService.updateFeed feed_id firebase_uid description) w))
  = snd (cache_del (the_cache collab) (commentCount_key (trim feed_id))
           (snd (cache_del (the_cache collab) (likeCount_key (trim feed_id)) (cache w)))).
Proof.
  enter feedService.updateFeed.
  destruct (store_query (the_store collab) (feedModel.getFeedById (trim feed_id))
              (store w)) as [[feed|]|e]; cbn in *; try discriminate.
  destruct (Feed.firebase_uid feed =? firebase_uid)%string; cbn; try discriminate.
  destruct (store_command (the_store collab)
              (feedModel.updateFeed (trim feed_id) description) (store w))
    as [[r'|e] s']; cbn; try discriminate.
  auto.
Qed.

Lemma deleteFeed_resolved feed_id firebase_uid r :
  outcome (run collab (feedService.deleteFeed feed_id firebase_uid) w) = Resolved r ->
  calls (run collab (feedService.deleteFeed feed_id firebase_uid) w)
  = [Store_query (feedModel.getFeedById (trim feed_id));
     Cache_call (redisHandle.del (likeCount_key (trim feed_id)));
     Cache_call (redisHandle.del (commentCount_key (trim feed_id)));
     Store_command (feedModel.deleteFeed (trim feed_id))] /\
  cache (after (run collab (feedService.deleteFeed feed_id firebase_uid) w))
  = snd (cache_del (the_cache collab) (commentCount_key (trim feed_id))
           (snd (cache_del (the_cache collab) (likeCount_key (trim feed_id)) (cache w)))).
Proof.
  enter feedService.deleteFeed.
  destruct (store_query (the_store collab) (feedModel.getFeedById (trim feed_id))
              (store w)) as [[feed|]|e]; cbn in *; try discriminate.
  destruct (Feed.firebase_uid feed =? firebase_uid)%string; cbn; try discriminate.
  destruct (store_command (the_store collab)
              (feedModel.deleteFeed (trim feed_id)) (store w))
    as [[r'|e] s']; cbn; try discriminate.
  auto.
Qed.
End Invalidation.

Section Recomputed.
Context {S : Type}.
Variable st : StoreModel S.
Variable w : World S (gmap string (Z * string)).
Variable feed_id : string.

Lemma like_count_recomputed_intro :
  cache w !! likeCount_key (trim feed_id) = None ->
  like_count_recomputed st w feed_id.
Proof.
  intros Hmiss. split; [exact Hmiss|].
  enter feedService.getLikeCount. rewrite Hmiss. unfold like_count_from_store. cbn.
  destruct (store_query st (feedModel.getFeedById (trim feed_id)) (store w))
    as [[feed|]|e]; cbn in *; try reflexivity.
  destruct (store_query st (feedModel.getLikeCount (trim feed_id)) (store w))
    as [n|e]; reflexivity.
Qed.

Lemma comment_count_recomputed_intro :
  cache w !! commentCount_key (trim feed_id) = None ->
  comment_count_recomputed st w feed_id.
Proof.
  intros Hmiss. split; [exact Hmiss|].
  enter feedService.getCommentCount. rewrite Hmiss. unfold comment_count_from_store. cbn.
  destruct (store_query st (feedModel.getFeedById (trim feed_id)) (store w))
    as [[feed|]|e]; cbn in *; try reflexivity.
  destruct (store_query st (feedModel.getCommentCount (trim feed_id)) (store w))
    as [n|e]; reflexivity.
Qed.
End Recomputed.

Lemma both_deleted (c : gmap string (Z * string)) (id : string) :
  delete (commentCount_key id) (delete (likeCount_key id) c) !! likeCount_key id = None /\
  delete (commentCount_key id) (delete (likeCount_key id) c) !! commentCount_key id = None.
Proof.
  split.
  - rewrite lookup_delete_ne; [apply lookup_delete_eq|].
    intros Heq. symmetry in Heq. now apply likeCount_key_not_commentCount_key in Heq.
  - apply lookup_delete_eq.
Qed.

(** C1.  A [createFeed], [updateFeed], [deleteFeed], [likeFeed] or
    [unlikeFeed] that resolves has, by then, called [del] on the counter
    keys of the feed: [feed:<id>:likeCount] and [feed:<id>:commentCount] for
    the first three ([id] being the id the Store returned for [createFeed],
    the trimmed feed id otherwise), [feed:<id>:likeCount] for the last two.
    Over the reference Cache those entries are gone when the operation
    returns, so the next [getLikeCount] (and, after the first three, the
    next [getCommentCount]) of that feed is not answered from the Cache: it
    settles as the Store, in the state the mutation left it, makes it.
    (Like and unlike do not change the number of comments, and leave the
    cached comment count alone.) *)
Theorem mutations_invalidate_counters :
  (forall (S C : Type) (collab : Collaborators S C) (w : World S C),
      (forall firebase_uid description imageUrls feedId,
          outcome (run collab (feedService.createFeed firebase_uid description imageUrls) w)
          = Resolved feedId ->
          calls (run collab (feedService.createFeed firebase_uid description imageUrls) w)
          = (Store_command (feedModel.createFeed firebase_uid description)
               :: images_call feedId imageUrls
               ++ [Cache_call (redisHandle.del (likeCount_key feedId));
                   Cache_call (redisHandle.del (commentCount_key feedId))])%list) /\
      (forall feed_id firebase_uid description r,
          outcome (run collab (feedService.updateFeed feed_id firebase_uid description) w)
          = Resolved r ->
          calls (run collab (feedService.updateFeed feed_id firebase_uid description) w)
          = [Store_query (feedModel.getFeedById (trim feed_id));
             Cache_call (redisHandle.del (likeCount_key (trim feed_id)));
             Cache_call (redisHandle.del (commentCount_key (trim feed_id)));
             Store_command (feedModel.updateFeed (trim feed_id) description)]) /\
      (forall feed_id firebase_uid r,
          outcome (run collab (feedService.deleteFeed feed_id firebase_uid) w) = Resolved r ->
          calls (run collab (feedService.deleteFeed feed_id firebase_uid) w)
          = [Store_query (feedModel.getFeedById (trim feed_id));
             Cache_call (redisHandle.del (likeCount_key (trim feed_id)));
             Cache_call (redisHandle.del (commentCount_key (trim feed_id)));
             Store_command (feedModel.deleteFeed (trim feed_id))]) /\
      (forall firebase_uid feed_id b,
          outcome (run collab (feedService.likeFeed firebase_uid feed_id) w) = Resolved b ->
          calls (run collab (feedService.likeFeed firebase_uid feed_id) w)
          = [Store_query (feedModel.getFeedById (trim feed_id));
             Store_query (feedModel.checkLikeStatus firebase_uid (trim feed_id));
             Store_command (feedModel.likeFeed firebase_uid (trim feed_id));
             Cache_call (redisHandle.del (likeCount_key (trim feed_id)))]) /\
      (forall firebase_uid feed_id b,
          outcome (run collab (feedService.unlikeFeed firebase_uid feed_id) w) = Resolved b ->
          calls (run collab (feedService.unlikeFeed firebase_uid feed_id) w)
          = [Store_query (feedModel.getFeedById (trim feed_id));
             Store_query (feedModel.checkLikeStatus firebase_uid (trim feed_id));
             Store_command (feedModel.unlikeFeed firebase_uid (trim feed_id));
             Cache_call (redisHandle.del (likeCount_key (trim feed_id)))])) /\
  (forall (S : Type) (st : StoreModel S) (w : World S (gmap string (Z * string))),
      (forall firebase_uid description imageUrls feedId,
          let created := run (mkCollaborators st reference_cache)
                           (feedService.createFeed firebase_uid description imageUrls) w in
          outcome created = Resolved feedId ->
          cache (after created) !! likeCount_key feedId = None /\
          cache (after created) !! commentCount_key feedId = None /\
          (trim feedId = feedId ->
           like_count_recomputed st (after created) feedId /\
           comment_count_recomputed st (after created) feedId)) /\
      (forall feed_id firebase_uid description r,
          let updated := run (mkCollaborators st reference_cache)
                           (feedService.updateFeed feed_id firebase_uid description) w in
          outcome updated = Resolved r ->
          like_count_recomputed st (after updated) feed_id /\
          comment_count_recomputed st (after updated) feed_id) /\
      (forall feed_id firebase_uid r,
          let deleted := run (mkCollaborators st reference_cache)
                           (feedService.deleteFeed feed_id firebase_uid) w in
          outcome deleted = Resolved r ->
          like_count_recomputed st (after deleted) feed_id /\
          comment_count_recomputed st (after deleted) feed_id) /\
      (forall firebase_uid feed_id b,
          let liked := run (mkCollaborators st reference_cache)
                         (feedService.likeFeed firebase_uid feed_id) w in
          outcome liked = Resolved b ->
          like_count_recomputed st (after liked) feed_id) /\
      (forall firebase_uid feed_id b,
          let unliked := run (mkCollaborators st reference_cache)
                           (feedService.unlikeFeed firebase_uid feed_id) w in
          outcome unliked = Resolved b ->
          like_count_recomputed st (after unliked) feed_id)).
Proof.
  split.
  - intros S C collab w. split; [|split; [|split; [|split]]].
    + intros u d i id H. now apply createFeed_resolved in H as [H _].
    + intros f u d r H. now apply updateFeed_resolved in H as [H _].
    + intros f u r H. now apply deleteFeed_resolved in H as [H _].
    + intros u f b H. now apply likeFeed_resolved in H as [H _].
    + intros u f b H. now apply unlikeFeed_resolved in H as [H _].
  - intros S st w. split; [|split; [|split; [|split]]]; cbn zeta.
    + intros u d i id H. apply createFeed_resolved in H as [_ Hcache]. cbn [the_cache reference_cache cache_del snd] in Hcache.
      destruct (both_deleted (cache w) id) as [Hlike Hcomment].
      rewrite Hcache. split; [exact Hlike|]. split; [exact Hcomment|].
      intros Htrim. split.
      * apply like_count_recomputed_intro. now rewrite Htrim, Hcache.
      * apply comment_count_recomputed_intro. now rewrite Htrim, Hcache.
    + intros f u d r H. apply updateFeed_resolved in H as [_ Hcache]. cbn [the_cache reference_cache cache_del snd] in Hcache.
      destruct (both_deleted (cache w) (trim f)) as [Hlike Hcomment]. split.
      * apply like_count_recomputed_intro. now rewrite Hcache.
      * apply comment_count_recomputed_intro. now rewrite Hcache.
    + intros f u r H. apply deleteFeed_resolved in H as [_ Hcache]. cbn [the_cache reference_cache cache_del snd] in Hcache.
      destruct (both_deleted (cache w) (trim f)) as [Hlike Hcomment]. split.
      * apply like_count_recomputed_intro. now rewrite Hcache.
      * apply comment_count_recomputed_intro. now rewrite Hcache.
    + intros u f b H. apply likeFeed_resolved in H as [_ Hcache]. cbn [the_cache reference_cache cache_del snd] in Hcache.
      apply like_count_recomputed_intro. rewrite Hcache. apply lookup_delete_eq.
    + intros u f b H. apply unlikeFeed_resolved in H as [_ Hcache]. cbn [the_cache reference_cache cache_del snd] in Hcache.
      apply like_count_recomputed_intro. rewrite Hcache. apply lookup_delete_eq.
Qed.

(** Before Carol's like the stale cached count is served; after it, and
    after Alice's update, the counts come from the Store. *)
Lemma mutations_invalidate_counters_witness :
  let liked := run reference (feedService.likeFeed "carol" " f1 ") warm_world in
  let updated := run reference (feedService.updateFeed " f1 " "alice" "x") warm_world in
  outcome (run reference (feedService.getLikeCount "f1") warm_world) = Resolved (Num 41)
  /\ outcome liked = Resolved true
  /\ In (Cache_call (redisHandle.del "feed:f1:likeCount")) (calls liked)
  /\ outcome (run reference (feedService.getLikeCount "f1") (after liked))
     = Resolved (Num 2)
  /\ outcome updated = Resolved (receipt 1)
  /\ In (Cache_call (redisHandle.del "feed:f1:likeCount")) (calls updated)
  /\ In (Cache_call (redisHandle.del "feed:f1:commentCount")) (calls updated)
  /\ outcome (run reference (feedService.getLikeCount "f1") (after updated))
     = Resolved (Num 1)
  /\ outcome (run reference (feedService.getCommentCount "f1") (after updated))
     = Resolved (Num 3).
Proof.
  cbn zeta. unfold reference.
  assert (Hliked : outcome (run (mkCollaborators reference_store reference_cache)
                              (feedService.likeFeed "carol" " f1 ") warm_world)
                   = Resolved true) by (vm_compute; reflexivity).
  assert (Hupdated : outcome (run (mkCollaborators reference_store reference_cache)
                                (feedService.updateFeed " f1 " "alice" "x") warm_world)
                     = Resolved (receipt 1)) by (vm_compute; reflexivity).
  destruct mutations_invalidate_counters as [Hcalls Hfresh].
  destruct (Hcalls _ _ (mkCollaborators reference_store reference_cache) warm_world)
    as (_ & Hupdate_calls & _ & Hlike_calls & _).
  destruct (Hfresh _ reference_store warm_world) as (_ & Hupdate & _ & Hlike & _).
  destruct (Hlike "carol" " f1 " true Hliked) as [_ Hlike_next].
  destruct (Hupdate " f1 " "alice" "x" (receipt 1) Hupdated)
    as [[_ Hlike_after] [_ Hcomment_after]].
  split; [vm_compute; reflexivity|]. split; [exact Hliked|]. split.
  { rewrite (Hlike_calls "carol" " f1 " true Hliked). vm_compute. tauto. }
  split.
  { etransitivity; [exact (eq_trans eq_refl Hlike_next) | vm_compute; reflexivity]. }
  split; [exact Hupdated|]. split.
  { rewrite (Hupdate_calls " f1 " "alice" "x" (receipt 1) Hupdated). vm_compute. tauto. }
  split.
  { rewrite (Hupdate_calls " f1 " "alice" "x" (receipt 1) Hupdated). vm_compute. tauto. }
  split.
  - etransitivity; [exact (eq_trans eq_refl Hlike_after) | vm_compute; reflexivity].
  - etransitivity; [exact (eq_trans eq_refl Hcomment_after) | vm_compute; reflexivity].
Defined.

(** * Further properties of the service *)

(** Split on what the collaborators answer, keeping the equations. *)
Ltac case_answers_eq :=
  repeat (cbn in *;
          match goal with
          | |- context [store_query ?st ?q ?s] => destruct (store_query st q s) eqn:?
          | |- context [store_command ?st ?m ?s] => destruct (store_command st m s) eqn:?
          | |- context [cache_get ?cm ?k ?c] => destruct (cache_get cm k c) eqn:?
          | |- context [match ?x with _ => _ end] => is_var x; destruct x
          | |- context [negb ?x] => is_var x; destruct x
          | |- context [(?a =? ?b)%string] => destruct (a =? b)%string eqn:?
          | |- context [?a <=? ?b] => destruct (a <=? b) eqn:?
          end);
  cbn in *.

Ltac unfold_bodies :=
  unfold feedService.body.createFeed, feedService.body.getFeedById,
    feedService.body.getAllFeeds, feedService.body.updateFeed,
    feedService.body.deleteFeed, feedService.body.updateFeedImage,
    feedService.body.deleteFeedImage, feedService.body.likeFeed,
    feedService.body.unlikeFeed, feedService.body.checkLikeStatus,
    feedService.body.getLikeCount, feedService.body.getCommentCount.

(** ** What is never written *)

Section NeverWritten.
Context {S C : Type}.
Variable collab : Collaborators S C.
Variable w : World S C.

(** X1.  [getFeedById], [getAllFeeds], [checkLikeStatus], [getLikeCount]
    and [getCommentCount] never send a write to the Store: however the
    collaborators answer, and whether the function resolves or is rejected,
    the Store is left in the state it was in. *)
Theorem read_operations_leave_the_store (op : Operation) :
  is_read_operation op = true ->
  store (after (run collab (exported op) w)) = store w /\
  Forall (fun c => is_store_command c = false) (calls (run collab (exported op) w)).
Proof.
  intros Hread. rewrite exported_is_guarded_attempt, run_try_handleError.
  destruct op; cbn in Hread; try discriminate.
  all: cbn [attempt]; unfold_bodies; case_answers.
  all: split; [reflexivity | all_pass].
Qed.

(** X2.  [getFeedById], [getAllFeeds], [checkLikeStatus], [updateFeedImage]
    and [deleteFeedImage] never call the Cache: whatever happens, none of
    their calls goes to [redisHandle] and the Cache is left as it was. *)
Theorem cacheless_operations_leave_the_cache (op : Operation) :
  is_cacheless_operation op = true ->
  cache (after (run collab (exported op) w)) = cache w /\
  Forall (fun c => is_cache_call c = false) (calls (run collab (exported op) w)).
Proof.
  intros Hcacheless. rewrite exported_is_guarded_attempt, run_try_handleError.
  destruct op; cbn in Hcacheless; try discriminate.
  all: cbn [attempt]; unfold_bodies; case_answers.
  all: split; [reflexivity | all_pass].
Qed.

(** X3.  [updateFeed], [deleteFeed], [updateFeedImage] and [deleteFeedImage]
    send a write to the Store only on behalf of the author: if any of their
    calls is a Store write, then the Store had answered the lookup with a
    feed whose [firebase_uid] is the acting identity. *)
Theorem writes_only_for_the_author (op : Operation) (id acting : string) (c : Call) :
  ownership_check op = Some (id, acting) ->
  In c (calls (run collab (exported op) w)) ->
  is_store_command c = true ->
  exists feed,
    store_query (the_store collab) (feedModel.getFeedById id) (store w)
      = Resolved (Some feed) /\
    Feed.firebase_uid feed = acting.
Proof.
  intros Hcheck. rewrite exported_is_guarded_attempt, run_try_handleError.
  destruct op; cbn in Hcheck; try discriminate; injection Hcheck as <- <-.
  all: cbn [attempt]; unfold_bodies; case_answers_eq.
  all: intros Hin Hcommand.
  all: repeat (destruct Hin as [<- | Hin]; try discriminate Hcommand).
  all: try contradiction.
  all: eexists; split; [reflexivity | now apply String.eqb_eq].
Qed.
End NeverWritten.

Section WritesAndInvalidation.
Context {S C : Type}.
Variable collab : Collaborators S C.
Variable w : World S C.

(** X4.  [likeFeed] sends its write to the Store only when the Store has
    the feed and reports the pair not liked, [unlikeFeed] only when it has
    the feed and reports the pair liked; either sends no other write. *)
Theorem like_writes_only_from_valid_state (firebase_uid feed_id : string) (c : Call) :
  is_store_command c = true ->
  (In c (calls (run collab (feedService.likeFeed firebase_uid feed_id) w)) ->
   c = Store_command (feedModel.likeFeed firebase_uid (trim feed_id)) /\
   has_feed (the_store collab) (trim feed_id) (store w) /\
   like_state (the_store collab) firebase_uid (trim feed_id) (store w) false) /\
  (In c (calls (run collab (feedService.unlikeFeed firebase_uid feed_id) w)) ->
   c = Store_command (feedModel.unlikeFeed firebase_uid (trim feed_id)) /\
   has_feed (the_store collab) (trim feed_id) (store w) /\
   like_state (the_store collab) firebase_uid (trim feed_id) (store w) true).
Proof.
  intros Hcommand. split.
  - enter feedService.likeFeed. case_answers_eq.
    all: intros Hin; repeat (destruct Hin as [<- | Hin]; try discriminate Hcommand).
    all: try contradiction.
    all: split; [reflexivity | split; [eexists; eassumption | eassumption]].
  - enter feedService.unlikeFeed. case_answers_eq.
    all: intros Hin; repeat (destruct Hin as [<- | Hin]; try discriminate Hcommand).
    all: try contradiction.
    all: split; [reflexivity | split; [eexists; eassumption | eassumption]].
Qed.

(** X5.  [updateFeed] and [deleteFeed] invalidate before they write: when
    the author's write is rejected by the Store, the operation is rejected
    with the Store's message, yet both [del] calls have been made and the
    Cache is what they leave. *)
Theorem invalidation_precedes_the_write
    (feed_id firebase_uid description : string) (feed : Feed.t) :
  store_query (the_store collab) (feedModel.getFeedById (trim feed_id)) (store w)
    = Resolved (Some feed) ->
  Feed.firebase_uid feed = firebase_uid ->
  (forall e s',
      store_command (the_store collab) (feedModel.updateFeed (trim feed_id) description)
        (store w) = (Rejected e, s') ->
      run collab (feedService.updateFeed feed_id firebase_uid description) w
      = mkRan (Rejected (new_Error (err_message e)))
          (logged (error_line "updating feed" e)
             (mkWorld s'
                (snd (cache_del (the_cache collab) (commentCount_key (trim feed_id))
                        (snd (cache_del (the_cache collab) (likeCount_key (trim feed_id))
                                (cache w)))))
                (console w)))
          [Store_query (feedModel.getFeedById (trim feed_id));
           Cache_call (redisHandle.del (likeCount_key (trim feed_id)));
           Cache_call (redisHandle.del (commentCount_key (trim feed_id)));
           Store_command (feedModel.updateFeed (trim feed_id) description)]) /\
  (forall e s',
      store_command (the_store collab) (feedModel.deleteFeed (trim feed_id)) (store w)
        = (Rejected e, s') ->
      run collab (feedService.deleteFeed feed_id firebase_uid) w
      = mkRan (Rejected (new_Error (err_message e)))
          (logged (error_line "deleting feed" e)
             (mkWorld s'
                (snd (cache_del (the_cache collab) (commentCount_key (trim feed_id))
                        (snd (cache_del (the_cache collab) (likeCount_key (trim feed_id))
                                (cache w)))))
                (console w)))
          [Store_query (feedModel.getFeedById (trim feed_id));
           Cache_call (redisHandle.del (likeCount_key (trim feed_id)));
           Cache_call (redisHandle.del (commentCount_key (trim feed_id)));
           Store_command (feedModel.deleteFeed (trim feed_id))]).
Proof.
  intros Hfeed Hauthor%String.eqb_eq. split; intros e s' Hwrite.
  - enter feedService.updateFeed. by_running. reflexivity.
  - enter feedService.deleteFeed. by_running. reflexivity.
Qed.

(** X6.  [likeFeed] and [unlikeFeed] invalidate after they write: when the
    Store rejects the write, the operation is rejected with the Store's
    message and the Cache has not been called. *)
Theorem no_invalidation_without_the_like
    (firebase_uid feed_id : string) (feed : Feed.t) :
  store_query (the_store collab) (feedModel.getFeedById (trim feed_id)) (store w)
    = Resolved (Some feed) ->
  (like_state (the_store collab) firebase_uid (trim feed_id) (store w) false ->
   forall e s',
     store_command (the_store collab) (feedModel.likeFeed firebase_uid (trim feed_id))
       (store w) = (Rejected e, s') ->
     run collab (feedService.likeFeed firebase_uid feed_id) w
     = mkRan (Rejected (new_Error (err_message e)))
         (logged (error_line "liking feed" e) (with_store s' w))
         [Store_query (feedModel.getFeedById (trim feed_id));
          Store_query (feedModel.checkLikeStatus firebase_uid (trim feed_id));
          Store_command (feedModel.likeFeed firebase_uid (trim feed_id))]) /\
  (like_state (the_store collab) firebase_uid (trim feed_id) (store w) true ->
   forall e s',
     store_command (the_store collab) (feedModel.unlikeFeed firebase_uid (trim feed_id))
       (store w) = (Rejected e, s') ->
     run collab (feedService.unlikeFeed firebase_uid feed_id) w
     = mkRan (Rejected (new_Error (err_message e)))
         (logged (error_line "unliking feed" e) (with_store s' w))
         [Store_query (feedModel.getFeedById (trim feed_id));
          Store_query (feedModel.checkLikeStatus firebase_uid (trim feed_id));
          Store_command (feedModel.unlikeFeed firebase_uid (trim feed_id))]).
Proof.
  intros Hfeed. unfold like_state. split; intros Hstate e s' Hwrite.
  - enter feedService.likeFeed. by_running. reflexivity.
  - enter feedService.unlikeFeed. by_running. reflexivity.
Qed.
End WritesAndInvalidation.

(** ** Counter reads at the edges *)

Lemma parseInt10_no_number (c : ascii) (rest : string) :
  is_whitespace c = false ->
  (c =? "-")%char = false ->
  (c =? "+")%char = false ->
  digit_value c = None ->
  parseInt10 (String c rest) = NaN.
Proof.
  intros Hspace Hminus Hplus Hdigit. unfold parseInt10. cbn [trimStart].
  rewrite Hspace, Hminus, Hplus. cbn [parse_digits]. rewrite Hdigit. reflexivity.
Qed.

Section CounterEdges.
Context {S C : Type}.
Variable collab : Collaborators S C.
Variable w : World S C.

(** X7.  A failure of the Cache [get] is not taken for a miss: when [get]
    is rejected, [getLikeCount] (resp. [getCommentCount]) is rejected with
    the same message, and the Store is never asked. *)
Theorem cache_failure_fails_the_read (feed_id : string) (e : JsError) :
  (cache_get (the_cache collab) (likeCount_key (trim feed_id)) (cache w) = Rejected e ->
   run collab (feedService.getLikeCount feed_id) w
   = mkRan (Rejected (new_Error (err_message e)))
       (logged (error_line "getting like count" e) w)
       [Cache_call (redisHandle.get (likeCount_key (trim feed_id)))]) /\
  (cache_get (the_cache collab) (commentCount_key (trim feed_id)) (cache w) = Rejected e ->
   run collab (feedService.getCommentCount feed_id) w
   = mkRan (Rejected (new_Error (err_message e)))
       (logged (error_line "getting comment count" e) w)
       [Cache_call (redisHandle.get (commentCount_key (trim feed_id)))]).
Proof.
  split; intros Hget.
  - enter feedService.getLikeCount. by_running. reflexivity.
  - enter feedService.getCommentCount. by_running. reflexivity.
Qed.

(** X8.  A counter read that is rejected has written nothing to the Cache:
    whatever made [getLikeCount] or [getCommentCount] fail, none of its
    calls is a [setex] or a [del], and the Cache is as it was. *)
Theorem rejected_read_caches_nothing (feed_id : string) (e : JsError) :
  (outcome (run collab (feedService.getLikeCount feed_id) w) = Rejected e ->
   cache (after (run collab (feedService.getLikeCount feed_id) w)) = cache w /\
   Forall (fun c => is_cache_write c = false)
     (calls (run collab (feedService.getLikeCount feed_id) w))) /\
  (outcome (run collab (feedService.getCommentCount feed_id) w) = Rejected e ->
   cache (after (run collab (feedService.getCommentCount feed_id) w)) = cache w /\
   Forall (fun c => is_cache_write c = false)
     (calls (run collab (feedService.getCommentCount feed_id) w))).
Proof.
  split.
  - enter feedService.getLikeCount. case_answers.
    all: intros Hrejected; try discriminate Hrejected.
    all: split; [reflexivity | all_pass].
  - enter feedService.getCommentCount. case_answers.
    all: intros Hrejected; try discriminate Hrejected.
    all: split; [reflexivity | all_pass].
Qed.

(** X9.  What a counter read caches is what it returns: any [setex] that
    [getLikeCount] (resp. [getCommentCount]) makes is for the key of the
    trimmed feed id, with 600 seconds, and its value is the number the read
    resolves with. *)
Theorem cached_value_is_the_returned_one (feed_id key : string) (seconds value : Z) :
  (In (Cache_call (redisHandle.setex key seconds value))
      (calls (run collab (feedService.getLikeCount feed_id) w)) ->
   key = likeCount_key (trim feed_id) /\ seconds = 600 /\
   outcome (run collab (feedService.getLikeCount feed_id) w) = Resolved (Num value)) /\
  (In (Cache_call (redisHandle.setex key seconds value))
      (calls (run collab (feedService.getCommentCount feed_id) w)) ->
   key = commentCount_key (trim feed_id) /\ seconds = 600 /\
   outcome (run collab (feedService.getCommentCount feed_id) w) = Resolved (Num value)).
Proof.
  split.
  - enter feedService.getLikeCount. case_answers.
    all: intros Hin; repeat (destruct Hin as [Hin | Hin]; try discriminate Hin).
    all: try contradiction.
    all: injection Hin as <- <- <-; auto.
  - enter feedService.getCommentCount. case_answers.
    all: intros Hin; repeat (destruct Hin as [Hin | Hin]; try discriminate Hin).
    all: try contradiction.
    all: injection Hin as <- <- <-; auto.
Qed.

(** X10.  A cached string that does not start a number is still a hit: when
    the first code unit of the cached value is neither white space, nor a
    sign, nor a digit, [getLikeCount] (resp. [getCommentCount]) resolves
    with [NaN], without error and without asking the Store. *)
Theorem unparsable_cache_entry_reads_as_NaN (feed_id : string) (c : ascii) (rest : string) :
  is_whitespace c = false ->
  (c =? "-")%char = false ->
  (c =? "+")%char = false ->
  digit_value c = None ->
  (cache_get (the_cache collab) (likeCount_key (trim feed_id)) (cache w)
     = Resolved (Some (String c rest)) ->
   run collab (feedService.getLikeCount feed_id) w
   = mkRan (Resolved NaN) w [Cache_call (redisHandle.get (likeCount_key (trim feed_id)))]) /\
  (cache_get (the_cache collab) (commentCount_key (trim feed_id)) (cache w)
     = Resolved (Some (String c rest)) ->
   run collab (feedService.getCommentCount feed_id) w
   = mkRan (Resolved NaN) w
       [Cache_call (redisHandle.get (commentCount_key (trim feed_id)))]).
Proof.
  intros Hspace Hminus Hplus Hdigit.
  pose proof (parseInt10_no_number c rest Hspace Hminus Hplus Hdigit) as HNaN.
  split; intros Hget.
  - enter feedService.getLikeCount. rewrite Hget. cbn. rewrite HNaN. reflexivity.
  - enter feedService.getCommentCount. rewrite Hget. cbn. rewrite HNaN. reflexivity.
Qed.
End CounterEdges.

(** ** The console *)

Section Console.
Context {S C : Type}.
Variable collab : Collaborators S C.
Variable w : World S C.

Lemma attempt_is_silent (op : Operation) :
  console (after (run collab (attempt op) w)) = console w.
Proof.
  destruct op; cbn [attempt]; unfold_bodies; case_answers; reflexivity.
Qed.

(** X11.  An exported function writes to the console exactly when it is
    rejected, and then one line: [Error <action>: <message>] with the
    message it is rejected with.  A function that resolves has written
    nothing. *)
Theorem one_console_line_per_failure (op : Operation) :
  (forall a, outcome (run collab (exported op) w) = Resolved a ->
     console (after (run collab (exported op) w)) = console w) /\
  (forall e, outcome (run collab (exported op) w) = Rejected e ->
     console (after (run collab (exported op) w))
     = (console w ++ [error_line (action op) e])%list).
Proof.
  rewrite exported_is_guarded_attempt, run_try_handleError.
  pose proof (attempt_is_silent op) as Hsilent.
  destruct (outcome (run collab (attempt op) w)) as [a0 | e0] eqn:Hattempt.
  - split.
    + intros _ _. exact Hsilent.
    + intros e He. rewrite Hattempt in He. discriminate.
  - split.
    + intros a Ha. discriminate.
    + intros e [= <-]. cbn. rewrite Hsilent. reflexivity.
Qed.
End Console.

(** ** Creating a feed *)

Section Creation.
Context {S C : Type}.
Variable collab : Collaborators S C.
Variable w : World S C.

(** X12.  [createFeed] attaches images only when it is given some: with
    [imageUrls] undefined or empty it never calls [addFeedImages], and when
    the Store accepts the feed the operation resolves with the Store's id
    after exactly the creation and the two [del] calls. *)
Theorem createFeed_without_images (firebase_uid description : string)
    (imageUrls : option (list string)) :
  imageUrls = None \/ imageUrls = Some [] ->
  Forall (fun c => is_addFeedImages c = false)
    (calls (run collab (feedService.createFeed firebase_uid description imageUrls) w)) /\
  (forall feedId s',
      store_command (the_store collab) (feedModel.createFeed firebase_uid description)
        (store w) = (Resolved feedId, s') ->
      run collab (feedService.createFeed firebase_uid description imageUrls) w
      = mkRan (Resolved feedId)
          (mkWorld s'
             (snd (cache_del (the_cache collab) (commentCount_key feedId)
                     (snd (cache_del (the_cache collab) (likeCount_key feedId) (cache w)))))
             (console w))
          [Store_command (feedModel.createFeed firebase_uid description);
           Cache_call (redisHandle.del (likeCount_key feedId));
           Cache_call (redisHandle.del (commentCount_key feedId))]).
Proof.
  intros [-> | ->]; split.
  1,3: enter feedService.createFeed; case_answers; all_pass.
  all: intros feedId s' Hcreated; enter feedService.createFeed; by_running; reflexivity.
Qed.

(** X13.  [createFeed] does not undo the feed when its images fail: if the
    Store accepts the feed and then rejects [addFeedImages], the operation
    is rejected with the Store's message, the Store stays in the state the
    two writes left it in, and the Cache has not been called. *)
Theorem createFeed_keeps_the_feed_when_images_fail
    (firebase_uid description url : string) (urls : list string)
    (feedId : string) (s1 s2 : S) (e : JsError) :
  store_command (the_store collab) (feedModel.createFeed firebase_uid description)
    (store w) = (Resolved feedId, s1) ->
  store_command (the_store collab) (feedModel.addFeedImages feedId (url :: urls)) s1
    = (Rejected e, s2) ->
  run collab (feedService.createFeed firebase_uid description (Some (url :: urls))) w
  = mkRan (Rejected (new_Error (err_message e)))
      (logged (error_line "creating feed" e) (with_store s2 w))
      [Store_command (feedModel.createFeed firebase_uid description);
       Store_command (feedModel.addFeedImages feedId (url :: urls))].
Proof.
  intros Hcreated Himages. enter feedService.createFeed. by_running. reflexivity.
Qed.

(** X14.  With images, [createFeed] passes them on as they are, in their
    order, under the id the Store has just returned, before it invalidates:
    when both writes are accepted it resolves with that id. *)
Theorem createFeed_with_images
    (firebase_uid description url : string) (urls : list string)
    (feedId : string) (s1 s2 : S) (r : Receipt) :
  store_command (the_store collab) (feedModel.createFeed firebase_uid description)
    (store w) = (Resolved feedId, s1) ->
  store_command (the_store collab) (feedModel.addFeedImages feedId (url :: urls)) s1
    = (Resolved r, s2) ->
  run collab (feedService.createFeed firebase_uid description (Some (url :: urls))) w
  = mkRan (Resolved feedId)
      (mkWorld s2
         (snd (cache_del (the_cache collab) (commentCount_key feedId)
                 (snd (cache_del (the_cache collab) (likeCount_key feedId) (cache w)))))
         (console w))
      [Store_command (feedModel.createFeed firebase_uid description);
       Store_command (feedModel.addFeedImages feedId (url :: urls));
       Cache_call (redisHandle.del (likeCount_key feedId));
       Cache_call (redisHandle.del (commentCount_key feedId))].
Proof.
  intros Hcreated Himages. enter feedService.createFeed. by_running. reflexivity.
Qed.
End Creation.

(** ** Reading a feed *)

Section Reading.
Context {S C : Type}.
Variable collab : Collaborators S C.
Variable w : World S C.

(** X15.  [getFeedById] does not turn a missing feed into an error: it
    resolves with whatever the Store resolves the trimmed id with, nothing
    included, and leaves the world as it was.  [checkLikeStatus], on the
    same missing feed, is rejected with "Feed not found". *)
Theorem getFeedById_passes_absence_on (firebase_uid feed_id : string)
    (found : option Feed.t) :
  store_query (the_store collab) (feedModel.getFeedById (trim feed_id)) (store w)
    = Resolved found ->
  run collab (feedService.getFeedById feed_id) w
  = mkRan (Resolved found) w [Store_query (feedModel.getFeedById (trim feed_id))] /\
  (found = None ->
   run collab (feedService.checkLikeStatus firebase_uid feed_id) w
   = mkRan (Rejected NotFound) (logged (error_line "checking like status" NotFound) w)
       [Store_query (feedModel.getFeedById (trim feed_id))]).
Proof.
  intros Hfound. split.
  - enter feedService.getFeedById. by_running. reflexivity.
  - intros ->. enter feedService.checkLikeStatus. by_running. reflexivity.
Qed.

(** X16.  For a feed the Store has, [checkLikeStatus] resolves with the
    Store's answer for the pair, whoever asks: it makes no ownership
    check. *)
Theorem checkLikeStatus_answers_for_anyone (firebase_uid feed_id : string)
    (feed : Feed.t) (liked : bool) :
  store_query (the_store collab) (feedModel.getFeedById (trim feed_id)) (store w)
    = Resolved (Some feed) ->
  like_state (the_store collab) firebase_uid (trim feed_id) (store w) liked ->
  run collab (feedService.checkLikeStatus firebase_uid feed_id) w
  = mkRan (Resolved liked) w
      [Store_query (feedModel.getFeedById (trim feed_id));
       Store_query (feedModel.checkLikeStatus firebase_uid (trim feed_id))].
Proof.
  unfold like_state. intros Hfeed Hstate.
  enter feedService.checkLikeStatus. by_running. reflexivity.
Qed.
End Reading.

(** ** Cache keys *)

(** X17.  The two key templates keep feeds and counters apart: two feed ids
    give the same like-count key (resp. comment-count key) only when they
    are the same id, and no like-count key is a comment-count key. *)
Theorem cache_keys_do_not_collide (f g : string) :
  (likeCount_key f = likeCount_key g -> f = g) /\
  (commentCount_key f = commentCount_key g -> f = g) /\
  likeCount_key f <> commentCount_key g.
Proof.
  split; [|split].
  - apply likeCount_key_inj.
  - apply commentCount_key_inj.
  - apply likeCount_key_not_commentCount_key.
Qed.

(** ** The author's mutations *)

Section Author.
Context {S C : Type}.
Variable collab : Collaborators S C.
Variable w : World S C.

(** X18.  For the author the gate opens: when the Store has the feed, its
    [firebase_uid] is the acting identity and the Store accepts the write,
    [updateFeed], [deleteFeed] and [updateFeedImage] resolve with the
    Store's own result and leave the Store in the state the write made;
    [updateFeedImage] does so without asking for the image count. *)
Theorem author_mutation_goes_through
    (feed_id firebase_uid description image_id newImageUrl : string)
    (feed : Feed.t) (r : Receipt) (s' : S) :
  Feed.firebase_uid feed = firebase_uid ->
  (store_query (the_store collab) (feedModel.getFeedById (trim feed_id)) (store w)
     = Resolved (Some feed) ->
   store_command (the_store collab) (feedModel.updateFeed (trim feed_id) description)
     (store w) = (Resolved r, s') ->
   outcome (run collab (feedService.updateFeed feed_id firebase_uid description) w)
   = Resolved r /\
   store (after (run collab (feedService.updateFeed feed_id firebase_uid description) w))
   = s') /\
  (store_query (the_store collab) (feedModel.getFeedById (trim feed_id)) (store w)
     = Resolved (Some feed) ->
   store_command (the_store collab) (feedModel.deleteFeed (trim feed_id)) (store w)
     = (Resolved r, s') ->
   outcome (run collab (feedService.deleteFeed feed_id firebase_uid) w) = Resolved r /\
   store (after (run collab (feedService.deleteFeed feed_id firebase_uid) w)) = s') /\
  (store_query (the_store collab) (feedModel.getFeedById feed_id) (store w)
     = Resolved (Some feed) ->
   store_command (the_store collab)
     (feedModel.updateFeedImage feed_id image_id newImageUrl) (store w) = (Resolved r, s') ->
   run collab (feedService.updateFeedImage firebase_uid feed_id image_id newImageUrl) w
   = mkRan (Resolved r) (with_store s' w)
       [Store_query (feedModel.getFeedById feed_id);
        Store_command (feedModel.updateFeedImage feed_id image_id newImageUrl)]).
Proof.
  intros Hauthor%String.eqb_eq. split; [|split]; intros Hfeed Hwrite.
  - enter feedService.updateFeed. by_running. split; reflexivity.
  - enter feedService.deleteFeed. by_running. split; reflexivity.
  - enter feedService.updateFeedImage. by_running. reflexivity.
Qed.
End Author.

(** ** The further properties at work *)

Lemma read_operations_leave_the_store_witness :
  store (after (run reference (exported (op_getLikeCount "f1")) demo_world)) = demo_store
  /\ Forall (fun c => is_store_command c = false)
       (calls (run reference (exported (op_getLikeCount "f1")) demo_world))
  /\ cache (after (run reference (exported (op_getLikeCount "f1")) demo_world))
       !! "feed:f1:likeCount" = Some (600, "1").
Proof.
  destruct (read_operations_leave_the_store reference demo_world (op_getLikeCount "f1")
              eq_refl) as [Hstore Hcalls].
  split; [exact Hstore|]. split; [exact Hcalls|]. vm_compute. reflexivity.
Defined.

Lemma cacheless_operations_leave_the_cache_witness :
  outcome (run reference (exported (op_deleteFeedImage "alice" "f1" "i1")) warm_world)
  = Resolved (receipt 1)
  /\ cache (after (run reference (exported (op_deleteFeedImage "alice" "f1" "i1"))
                     warm_world)) = cache warm_world
  /\ Forall (fun c => is_cache_call c = false)
       (calls (run reference (exported (op_deleteFeedImage "alice" "f1" "i1")) warm_world)).
Proof.
  destruct (cacheless_operations_leave_the_cache reference warm_world
              (op_deleteFeedImage "alice" "f1" "i1") eq_refl) as [Hcache Hcalls].
  split; [vm_compute; reflexivity|]. split; [exact Hcache | exact Hcalls].
Defined.

Lemma writes_only_for_the_author_witness :
  In (Store_command (feedModel.updateFeed "f1" "x"))
    (calls (run reference (exported (op_updateFeed " f1 " "alice" "x")) demo_world))
  /\ exists feed,
       store_query reference_store (feedModel.getFeedById "f1") demo_store
       = Resolved (Some feed) /\ Feed.firebase_uid feed = "alice".
Proof.
  assert (Hin : In (Store_command (feedModel.updateFeed "f1" "x"))
                  (calls (run reference (exported (op_updateFeed " f1 " "alice" "x"))
                            demo_world))) by (vm_compute; tauto).
  split; [exact Hin|].
  exact (writes_only_for_the_author reference demo_world
           (op_updateFeed " f1 " "alice" "x") "f1" "alice"
           (Store_command (feedModel.updateFeed "f1" "x")) eq_refl Hin eq_refl).
Defined.

Lemma like_writes_only_from_valid_state_witness :
  In (Store_command (feedModel.likeFeed "carol" "f1"))
    (calls (run reference (feedService.likeFeed "carol" "f1") demo_world))
  /\ has_feed reference_store "f1" demo_store
  /\ like_state reference_store "carol" "f1" demo_store false
  /\ In (Store_command (feedModel.unlikeFeed "bob" "f1"))
       (calls (run reference (feedService.unlikeFeed "bob" "f1") demo_world))
  /\ like_state reference_store "bob" "f1" demo_store true.
Proof.
  assert (Hlike : In (Store_command (feedModel.likeFeed "carol" "f1"))
                    (calls (run reference (feedService.likeFeed "carol" "f1") demo_world)))
    by (vm_compute; tauto).
  assert (Hunlike : In (Store_command (feedModel.unlikeFeed "bob" "f1"))
                      (calls (run reference (feedService.unlikeFeed "bob" "f1") demo_world)))
    by (vm_compute; tauto).
  destruct (proj1 (like_writes_only_from_valid_state reference demo_world "carol" "f1"
                     (Store_command (feedModel.likeFeed "carol" "f1")) eq_refl) Hlike)
    as (_ & Hfeed & Hnot).
  destruct (proj2 (like_writes_only_from_valid_state reference demo_world "bob" "f1"
                     (Store_command (feedModel.unlikeFeed "bob" "f1")) eq_refl) Hunlike)
    as (_ & _ & Hliked).
  split; [exact Hlike|]. split; [exact Hfeed|]. split; [exact Hnot|].
  split; [exact Hunlike | exact Hliked].
Defined.

Lemma invalidation_precedes_the_write_witness :
  let updated := run (mkCollaborators writes_down reference_cache)
                   (feedService.updateFeed "f1" "alice" "x") warm_world in
  outcome updated = Rejected (new_Error "connection lost")
  /\ store (after updated) = demo_store
  /\ cache warm_world !! "feed:f1:likeCount" = Some (600, "41")
  /\ cache (after updated) !! "feed:f1:likeCount" = None
  /\ cache (after updated) !! "feed:f1:commentCount" = None.
Proof.
  cbn zeta.
  rewrite (proj1 (invalidation_precedes_the_write
                    (mkCollaborators writes_down reference_cache) warm_world
                    "f1" "alice" "x" alice_feed eq_refl eq_refl)
             connection_lost demo_store eq_refl).
  vm_compute. repeat split; reflexivity.
Defined.

Lemma no_invalidation_without_the_like_witness :
  let liked := run (mkCollaborators writes_down reference_cache)
                 (feedService.likeFeed "carol" "f1") warm_world in
  outcome liked = Rejected (new_Error "connection lost")
  /\ cache (after liked) = cache warm_world
  /\ cache (after liked) !! "feed:f1:likeCount" = Some (600, "41").
Proof.
  cbn zeta.
  rewrite (proj1 (no_invalidation_without_the_like
                    (mkCollaborators writes_down reference_cache) warm_world
                    "carol" "f1" alice_feed eq_refl)
             ltac:(vm_compute; reflexivity) connection_lost demo_store eq_refl).
  vm_compute. repeat split; reflexivity.
Defined.

Lemma cache_failure_fails_the_read_witness :
  run (mkCollaborators reference_store unreachable_cache)
    (feedService.getLikeCount "f1") (mkWorld demo_store tt [])
  = mkRan (Rejected (new_Error "connection lost"))
      (mkWorld demo_store tt ["Error getting like count: connection lost"])
      [Cache_call (redisHandle.get "feed:f1:likeCount")]
  /\ store_query reference_store (feedModel.getLikeCount "f1") demo_store = Resolved 1.
Proof.
  split; [|vm_compute; reflexivity].
  apply (proj1 (cache_failure_fails_the_read
                  (mkCollaborators reference_store unreachable_cache)
                  (mkWorld demo_store tt []) "f1" connection_lost)).
  reflexivity.
Defined.

Lemma rejected_read_caches_nothing_witness :
  outcome (run reference (feedService.getLikeCount "f9") warm_world) = Rejected NotFound
  /\ cache (after (run reference (feedService.getLikeCount "f9") warm_world))
     = cache warm_world
  /\ Forall (fun c => is_cache_write c = false)
       (calls (run reference (feedService.getLikeCount "f9") warm_world)).
Proof.
  assert (Hrejected : outcome (run reference (feedService.getLikeCount "f9") warm_world)
                      = Rejected NotFound) by (vm_compute; reflexivity).
  split; [exact Hrejected|].
  exact (proj1 (rejected_read_caches_nothing reference warm_world "f9" NotFound) Hrejected).
Defined.

Lemma cached_value_is_the_returned_one_witness :
  In (Cache_call (redisHandle.setex "feed:f1:likeCount" 600 1))
    (calls (run reference (feedService.getLikeCount " f1 ") demo_world))
  /\ "feed:f1:likeCount" = likeCount_key (trim " f1 ")
  /\ 600 = 600
  /\ outcome (run reference (feedService.getLikeCount " f1 ") demo_world)
     = Resolved (Num 1).
Proof.
  assert (Hin : In (Cache_call (redisHandle.setex "feed:f1:likeCount" 600 1))
                  (calls (run reference (feedService.getLikeCount " f1 ") demo_world)))
    by (vm_compute; tauto).
  split; [exact Hin|].
  exact (proj1 (cached_value_is_the_returned_one reference demo_world " f1 "
                  "feed:f1:likeCount" 600 1) Hin).
Defined.

Lemma unparsable_cache_entry_reads_as_NaN_witness :
  run reference (feedService.getLikeCount "f1")
    (mkWorld demo_store {[ "feed:f1:likeCount" := (600, "oops") ]} [])
  = mkRan (Resolved NaN)
      (mkWorld demo_store {[ "feed:f1:likeCount" := (600, "oops") ]} [])
      [Cache_call (redisHandle.get "feed:f1:likeCount")].
Proof.
  apply (proj1 (unparsable_cache_entry_reads_as_NaN reference
                  (mkWorld demo_store {[ "feed:f1:likeCount" := (600, "oops") ]} [])
                  "f1" "o" "ops" eq_refl eq_refl eq_refl eq_refl)).
  reflexivity.
Defined.

Lemma one_console_line_per_failure_witness :
  console (after (run reference (exported (op_likeFeed "carol" "f1")) demo_world)) = []
  /\ console (after (run reference (exported (op_likeFeed "bob" "f1")) demo_world))
     = ["Error liking feed: Already liked this feed"].
Proof.
  split.
  - apply (proj1 (one_console_line_per_failure reference demo_world
                    (op_likeFeed "carol" "f1")) true).
    vm_compute. reflexivity.
  - apply (proj2 (one_console_line_per_failure reference demo_world
                    (op_likeFeed "bob" "f1")) AlreadyLiked).
    vm_compute. reflexivity.
Defined.

Lemma createFeed_without_images_witness :
  let created := run reference (feedService.createFeed "carol" "hi" (Some [])) warm_world in
  outcome created = Resolved "f3"
  /\ calls created
     = [Store_command (feedModel.createFeed "carol" "hi");
        Cache_call (redisHandle.del "feed:f3:likeCount");
        Cache_call (redisHandle.del "feed:f3:commentCount")]
  /\ Forall (fun c => is_addFeedImages c = false) (calls created)
  /\ feeds (store (after created)) !! "f3" = Some (Feed.mk "f3" "carol" "hi").
Proof.
  cbn zeta.
  destruct (createFeed_without_images reference warm_world "carol" "hi" (Some [])
              ltac:(right; reflexivity)) as [Hnone Hrun].
  split; [|split; [|split; [exact Hnone|]]].
  all: rewrite (Hrun "f3"
                  (snd (reference_command (feedModel.createFeed "carol" "hi") demo_store))
                  ltac:(vm_compute; reflexivity)).
  all: vm_compute; reflexivity.
Defined.

Lemma createFeed_keeps_the_feed_when_images_fail_witness :
  let created := run (mkCollaborators images_down reference_cache)
                   (feedService.createFeed "carol" "hi" (Some ["a.jpg"])) demo_world in
  outcome created = Rejected (new_Error "connection lost")
  /\ feeds demo_store !! "f3" = None
  /\ feeds (store (after created)) !! "f3" = Some (Feed.mk "f3" "carol" "hi")
  /\ image_count "f3" (store (after created)) = 0.
Proof.
  cbn zeta.
  rewrite (createFeed_keeps_the_feed_when_images_fail
             (mkCollaborators images_down reference_cache) demo_world
             "carol" "hi" "a.jpg" [] "f3"
             (snd (reference_command (feedModel.createFeed "carol" "hi") demo_store))
             (snd (reference_command (feedModel.createFeed "carol" "hi") demo_store))
             connection_lost ltac:(vm_compute; reflexivity) ltac:(vm_compute; reflexivity)).
  vm_compute. repeat split; reflexivity.
Defined.

Lemma createFeed_with_images_witness :
  let created := run reference
                   (feedService.createFeed "carol" "hi" (Some ["a.jpg"; "b.jpg"]))
                   demo_world in
  outcome created = Resolved "f3"
  /\ calls created
     = [Store_command (feedModel.createFeed "carol" "hi");
        Store_command (feedModel.addFeedImages "f3" ["a.jpg"; "b.jpg"]);
        Cache_call (redisHandle.del "feed:f3:likeCount");
        Cache_call (redisHandle.del "feed:f3:commentCount")]
  /\ image_count "f3" (store (after created)) = 2.
Proof.
  cbn zeta.
  rewrite (createFeed_with_images reference demo_world "carol" "hi" "a.jpg" ["b.jpg"] "f3"
             (snd (reference_command (feedModel.createFeed "carol" "hi") demo_store))
             (snd (reference_command (feedModel.addFeedImages "f3" ["a.jpg"; "b.jpg"])
                     (snd (reference_command (feedModel.createFeed "carol" "hi")
                             demo_store))))
             (receipt 2) ltac:(vm_compute; reflexivity) ltac:(vm_compute; reflexivity)).
  vm_compute. repeat split; reflexivity.
Defined.

Lemma getFeedById_passes_absence_on_witness :
  run reference (feedService.getFeedById " f9 ") demo_world
  = mkRan (Resolved None) demo_world [Store_query (feedModel.getFeedById "f9")]
  /\ run reference (feedService.checkLikeStatus "bob" " f9 ") demo_world
     = mkRan (Rejected NotFound)
         (logged "Error checking like status: Feed not found" demo_world)
         [Store_query (feedModel.getFeedById "f9")]
  /\ run reference (feedService.getFeedById " f1 ") demo_world
     = mkRan (Resolved (Some alice_feed)) demo_world
         [Store_query (feedModel.getFeedById "f1")].
Proof.
  destruct (getFeedById_passes_absence_on reference demo_world "bob" " f9 " None eq_refl)
    as [Habsent Hstatus].
  split; [exact Habsent|]. split; [exact (Hstatus eq_refl)|].
  exact (proj1 (getFeedById_passes_absence_on reference demo_world "bob" " f1 "
                  (Some alice_feed) eq_refl)).
Defined.

Lemma checkLikeStatus_answers_for_anyone_witness :
  run reference (feedService.checkLikeStatus "bob" " f1 ") demo_world
  = mkRan (Resolved true) demo_world
      [Store_query (feedModel.getFeedById "f1");
       Store_query (feedModel.checkLikeStatus "bob" "f1")]
  /\ run reference (feedService.checkLikeStatus "mallory" "f1") demo_world
     = mkRan (Resolved false) demo_world
         [Store_query (feedModel.getFeedById "f1");
          Store_query (feedModel.checkLikeStatus "mallory" "f1")].
Proof.
  split.
  - apply (checkLikeStatus_answers_for_anyone reference demo_world "bob" " f1 "
             alice_feed true eq_refl).
    vm_compute. reflexivity.
  - apply (checkLikeStatus_answers_for_anyone reference demo_world "mallory" "f1"
             alice_feed false eq_refl).
    vm_compute. reflexivity.
Defined.

Lemma author_mutation_goes_through_witness :
  outcome (run reference (feedService.deleteFeed " f1 " "alice") demo_world)
  = Resolved (receipt 1)
  /\ feeds (store (after (run reference (feedService.deleteFeed " f1 " "alice")
                            demo_world))) !! "f1" = None
  /\ outcome (run reference (feedService.updateFeedImage "alice" "f1" "i1" "z.jpg")
                demo_world) = Resolved (receipt 1).
Proof.
  destruct (author_mutation_goes_through reference demo_world " f1 " "alice" "x" "i1"
              "z.jpg" alice_feed (receipt 1)
              (snd (reference_command (feedModel.deleteFeed "f1") demo_store)) eq_refl)
    as (_ & Hdelete & _).
  destruct Hdelete as [Houtcome Hstore];
    [reflexivity | vm_compute; reflexivity |].
  split; [exact Houtcome|]. split; [rewrite Hstore; vm_compute; reflexivity|].
  destruct (author_mutation_goes_through reference demo_world "f1" "alice" "x" "i1"
              "z.jpg" alice_feed (receipt 1)
              (snd (reference_command (feedModel.updateFeedImage "f1" "i1" "z.jpg")
                      demo_store)) eq_refl) as (_ & _ & Himage).
  rewrite Himage; [reflexivity | reflexivity | vm_compute; reflexivity].
Defined.

Lemma cache_keys_do_not_collide_witness :
  likeCount_key "f1" <> commentCount_key "f1"
  /\ likeCount_key "f1" <> likeCount_key "f2"
  /\ commentCount_key "f1" <> commentCount_key " f1".
Proof.
  destruct (cache_keys_do_not_collide "f1" "f1") as (_ & _ & Hfamilies).
  destruct (cache_keys_do_not_collide "f1" "f2") as (Hlike & _ & _).
  destruct (cache_keys_do_not_collide "f1" " f1") as (_ & Hcomment & _).
  split; [exact Hfamilies|]. split.
  - intros Hsame. apply Hlike in Hsame. discriminate.
  - intros Hsame. apply Hcomment in Hsame. discriminate.
Defined.
